(** * Bootstrap of the themis bridge daemon: bridge/cmd/root.go

    A shallow embedding of the command bootstrap of the bridge daemon:
    the flag-to-store resolution ([AdjustBridgeDBValue]), the pre-run and
    post-run hooks of [rootCmd], and the metrics server they start and
    stop.  Package-level Go variables (the global viper instance, the
    [metricsServer] value, the default HTTP mux) are fields of an explicit
    [World] that every function threads through.

    The file calls into libraries that are not part of the repository
    (path/filepath, pflag, viper, net/http, cobra).  Each of them is
    modelled in a module of its own, after the library's documented
    behaviour, and only as far as root.go uses it. *)

From stdpp Require Import base option list gmap strings.
From Stdlib Require Import ZArith Ascii String.

Local Open Scope string_scope.
Local Open Scope Z_scope.

(** ** Go's [error] values

    A Go [error] is an interface value that may be [nil]; it is modelled as
    [option error], [None] standing for [nil]. *)
Inductive error : Type :=
  | ErrServerClosed                (* http.ErrServerClosed *)
  | DeadlineExceeded               (* context.DeadlineExceeded *)
  | ErrHelp                        (* flag.ErrHelp *)
  | ErrFlagNotDefined (name : string)
  | ErrFlagNil (key : string)    (* viper: flag for key is nil *)
  | ErrOther (msg : string).

Global Instance error_eq_dec : EqDecision error.
Proof. solve_decision. Defined.

(** ** path/filepath (Unix) *)
Module filepath.

Definition Separator : ascii := "/"%char.

(** The elements of a path: the substrings between separators. *)
Fixpoint elements (path : string) : list string :=
  match path with
  | EmptyString => [EmptyString]
  | String c rest =>
      if Ascii.eqb c Separator then EmptyString :: elements rest
      else match elements rest with
           | [] => [String c EmptyString]
           | e :: es => String c e :: es
           end
  end.

(** One step of [Clean]'s loop.  [out] holds the elements written so
    far, last one first.  An empty element and [.] are dropped; [..]
    removes the last real element, is dropped at the root, and is kept
    in front of a relative path. *)
Definition clean_step (rooted : bool) (out : list string) (e : string)
  : list string :=
  if decide (e = "") then out
  else if decide (e = ".") then out
  else if decide (e = "..") then
    match out with
    | [] => if rooted then [] else [".."]
    | top :: below =>
        if decide (top = "..") then ".." :: out else below
    end
  else e :: out.

Fixpoint join_elements (es : list string) : string :=
  match es with
  | [] => ""
  | [e] => e
  | e :: es' => e +:+ String Separator (join_elements es')
  end.

Definition is_rooted (path : string) : bool :=
  match path with
  | String c _ => Ascii.eqb c Separator
  | EmptyString => false
  end.

Definition Clean (path : string) : string :=
  if decide (path = "") then "."
  else
    let rooted := is_rooted path in
    let out := foldl (clean_step rooted) [] (elements path) in
    let body := join_elements (rev out) in
    if rooted then String Separator body
    else if decide (body = "") then "." else body.

(** [Join] ignores empty leading elements, joins what is left with the
    separator and cleans the result; with nothing left it is the empty
    string. *)
Fixpoint Join (elem : list string) : string :=
  match elem with
  | [] => ""
  | e :: rest =>
      if decide (e = "") then Join rest
      else Clean (join_elements elem)
  end.

End filepath.

(** What [filepath.Clean] keeps in its buffer: elements that are not
    empty and do not start with a separator. *)
Definition proper_element (e : string) : Prop :=
  e <> "" /\ filepath.is_rooted e = false.

(** ** pflag: a command's flag set

    Every flag root.go declares is a string flag.  Reading and parsing
    see a flag set as a map from flag names to their current string
    values; declaring also sees the shorthands. *)
Module pflag.

(** [FlagSet.GetString]: the value of a declared flag; for a name that
    was never declared the empty string and an error. *)
Definition GetString (f : gmap string string) (name : string)
  : string * option error :=
  match f !! name with
  | Some value => (value, None)
  | None => ("", Some (ErrFlagNotDefined name))
  end.

(** A flag set as declarations see it: the value of each declared flag
    by name, and the name that owns each one-letter shorthand. *)
Record FlagSet : Type := {
  formal : gmap string string;
  shorthands : gmap string string;
}.

Definition empty : FlagSet := {| formal := ∅; shorthands := ∅ |}.

(** [FlagSet.StringP]: declare a flag with a shorthand and a default
    value.  Declaring a name a second time panics, and so does a
    shorthand of more than one letter or one that is taken; [None]
    stands for the panic.  An empty shorthand declares none. *)
Definition StringP (name shorthand value : string) (f : FlagSet)
  : option FlagSet :=
  match formal f !! name with
  | Some _ => None
  | None =>
      let declared := <[name := value]> (formal f) in
      if decide (shorthand = "")
      then Some {| formal := declared; shorthands := shorthands f |}
      else if decide (1 < String.length shorthand)%nat then None
      else
        match shorthands f !! shorthand with
        | Some _ => None
        | None =>
            Some {| formal := declared;
                    shorthands := <[shorthand := name]> (shorthands f) |}
        end
  end.

(** [FlagSet.String]: [StringP] without a shorthand. *)
Definition String (name value : string) (f : FlagSet) : option FlagSet :=
  StringP name "" value f.

(** [FlagSet.Lookup]: the declared flag of that name, or nil. *)
Definition Lookup (f : FlagSet) (name : string) : option string :=
  match formal f !! name with
  | Some _ => Some name
  | None => None
  end.

(** Parsing one [--name=value] argument: only a declared flag can be
    set. *)
Definition set_arg (f : gmap string string) (arg : string * string)
  : option (gmap string string) :=
  match f !! arg.1 with
  | Some _ => Some (<[arg.1 := arg.2]> f)
  | None => None
  end.

Fixpoint Parse (f : gmap string string) (args : list (string * string))
  : option (gmap string string) :=
  match args with
  | [] => Some f
  | a :: rest =>
      match set_arg f a with
      | Some f' => Parse f' rest
      | None => None
      end
  end.

End pflag.

(** ** viper: the process-wide configuration store

    [viper.Set] writes into the override layer of the global instance: a
    later write to a key replaces the earlier one.  (viper lower-cases its
    keys; the keys of root.go are lower-case already.) *)
Definition viper_Set (key value : string) (store : gmap string string)
  : gmap string string :=
  <[key := value]> store.

(** [Viper.BindPFlag] on an instance [v], seen as the flags bound to
    its keys: a nil flag is an error, any other flag is bound to the
    key. *)
Definition viper_BindPFlag (key : string) (flag : option string)
  (v : gmap string string) : gmap string string * option error :=
  match flag with
  | None => (v, Some (ErrFlagNil key))
  | Some name => (<[key := name]> v, None)
  end.

(** The constants of root.go. *)
Definition bridgeDBFlag : string := "bridge-db".
Definition bridgeSqliteDBFlag : string := "bridge-sqlite-db".
Definition metricsServerFlag : string := "metrics-server-addr".
Definition rpcServerFlag : string := "rpc-server-addr".
Definition metisChainIDFlag : string := "metis-chain-id".
Definition logsTypeFlag : string := "logs-type".

(** What a hook reads of the [*cobra.Command] it is handed: the command's
    [Use] line and the values of its flags, its own and the inherited
    persistent ones. *)
Record Command : Type := {
  Use : string;
  Flags : gmap string string;
}.

(** ** time and context: durations are nanosecond counts *)
Module time.
Definition Second : Z := 1000000000.
End time.

Module context.
(** [context.WithTimeout(context.Background(), d)]: all that root.go
    uses of the context is the time it leaves to the callee. *)
Definition WithTimeout (d : Z) : Z := d.
End context.

(** ** net/http: the server value behind [metricsServer] *)
Module http.

(** A tracked connection is idle, or busy for some more time. *)
Inductive ConnState : Type :=
  | StateIdle
  | StateActive (busy : Z).

(** A tracked listener, with what closing it reports.  Once it is
    closed the serve loop returns and the server tracks it no longer. *)
Record Listener : Type := { closeErr : option error }.

Record Server : Type := {
  Addr : string;
  ReadTimeout : Z;
  ReadHeaderTimeout : Z;
  WriteTimeout : Z;
  MaxHeaderBytes : Z;
  inShutdown : bool;
  listeners : list Listener;
  activeConn : list ConnState;
}.

(** The zero value of [http.Server]: what a declared, never assigned
    variable holds. *)
Definition zero : Server :=
  {| Addr := ""; ReadTimeout := 0; ReadHeaderTimeout := 0;
     WriteTimeout := 0; MaxHeaderBytes := 0; inShutdown := false;
     listeners := []; activeConn := [] |}.

(** Closing every listener: the first error met, if any. *)
Fixpoint closeListeners (ls : list Listener) : option error :=
  match ls with
  | [] => None
  | ln :: rest =>
      match closeErr ln with
      | Some e => Some e
      | None => closeListeners rest
      end
  end.

(** What is left of a connection when the context has run out: an idle
    connection is closed at once, a busy one is closed if it turns idle
    in time, and is still tracked otherwise. *)
Definition drain (ctx : Z) (c : ConnState) : option ConnState :=
  match c with
  | StateIdle => None
  | StateActive busy =>
      if decide (busy <= ctx) then None
      else Some (StateActive (busy - ctx))
  end.

(** [Server.Shutdown]: mark the server as shutting down, close the
    listeners, then close connections as they turn idle.  When none is
    left the result is the listeners' close error; when the context
    expires first it is the context's error. *)
Definition Shutdown (ctx : Z) (srv : Server) : option error * Server :=
  let lnerr := closeListeners (listeners srv) in
  let left := omap (drain ctx) (activeConn srv) in
  let srv' :=
    {| Addr := Addr srv; ReadTimeout := ReadTimeout srv;
       ReadHeaderTimeout := ReadHeaderTimeout srv;
       WriteTimeout := WriteTimeout srv;
       MaxHeaderBytes := MaxHeaderBytes srv;
       inShutdown := true;
       listeners := [];
       activeConn := left |} in
  (match left with [] => lnerr | _ :: _ => Some DeadlineExceeded end, srv').

(** [Server.ListenAndServe] blocks and always returns a non-nil error:
    [ErrServerClosed] at once on a server that is shutting down,
    otherwise [served], the error that ends listening (a failed bind, a
    failed accept, or [ErrServerClosed] once Shutdown has closed the
    listener). *)
Definition ListenAndServe (served : error) (srv : Server) : option error :=
  if inShutdown srv then Some ErrServerClosed else Some served.

End http.

(** ** The process state *)

(** The goroutines root.go starts. *)
Inductive Goroutine : Type :=
  | metricsListenLoop.   (* the [go func] of initMetrics *)

Record World : Type := {
  config : gmap string string;      (* the global viper instance *)
  metricsServer : http.Server;      (* var metricsServer http.Server *)
  DefaultServeMux : list string;    (* patterns given to http.Handle *)
  goroutines : list Goroutine;      (* started with [go] *)
  logged : list (string * error);   (* logger.Error *)
  shutdownCalls : list Z;           (* contexts handed to Shutdown *)
}.

(** A process that has just started. *)
Definition fresh : World :=
  {| config := ∅; metricsServer := http.zero; DefaultServeMux := [];
     goroutines := []; logged := []; shutdownCalls := [] |}.

Definition set_config (f : gmap string string -> gmap string string)
  (w : World) : World :=
  {| config := f (config w); metricsServer := metricsServer w;
     DefaultServeMux := DefaultServeMux w; goroutines := goroutines w;
     logged := logged w; shutdownCalls := shutdownCalls w |}.

Definition set_metricsServer (srv : http.Server) (w : World) : World :=
  {| config := config w; metricsServer := srv;
     DefaultServeMux := DefaultServeMux w; goroutines := goroutines w;
     logged := logged w; shutdownCalls := shutdownCalls w |}.

Definition http_Handle (pattern : string) (w : World) : World :=
  {| config := config w; metricsServer := metricsServer w;
     DefaultServeMux := DefaultServeMux w ++ [pattern];
     goroutines := goroutines w;
     logged := logged w; shutdownCalls := shutdownCalls w |}.

Definition go (g : Goroutine) (w : World) : World :=
  {| config := config w; metricsServer := metricsServer w;
     DefaultServeMux := DefaultServeMux w;
     goroutines := goroutines w ++ [g];
     logged := logged w; shutdownCalls := shutdownCalls w |}.

Definition logger_Error (msg : string) (err : error) (w : World) : World :=
  {| config := config w; metricsServer := metricsServer w;
     DefaultServeMux := DefaultServeMux w; goroutines := goroutines w;
     logged := logged w ++ [(msg, err)]; shutdownCalls := shutdownCalls w |}.

Definition called_Shutdown (ctx : Z) (w : World) : World :=
  {| config := config w; metricsServer := metricsServer w;
     DefaultServeMux := DefaultServeMux w; goroutines := goroutines w;
     logged := logged w; shutdownCalls := shutdownCalls w ++ [ctx] |}.

(** How a call ends: it returns, the process exits ([os.Exit]), or the
    goroutine panics. *)
Inductive Outcome (A : Type) : Type :=
  | Ret (a : A) (w : World)
  | Exit (code : Z) (w : World)
  | Panic (w : World).
Arguments Ret {A} a w.
Arguments Exit {A} code w.
Arguments Panic {A} w.

Definition bind {A B : Type} (m : Outcome A) (k : A -> World -> Outcome B)
  : Outcome B :=
  match m with
  | Ret a w => k a w
  | Exit code w => Exit code w
  | Panic w => Panic w
  end.

(** The process state a call leaves behind, however it ends. *)
Definition Outcome_world {A : Type} (m : Outcome A) : World :=
  match m with
  | Ret _ w | Exit _ w | Panic w => w
  end.

(** ** cobra: how a command is run

    A command of the tree with the hooks root.go sets, and the order in
    which [Command.execute] calls them.  The persistent pre-run hook is
    the one of the nearest command that has one, the command itself
    first, then its parents.  The post-run hook is the command's own; it
    is not inherited, and it is not reached when the body returns an
    error.  A command without a body is not runnable and only asks for
    help. *)
Module cobra.

Record Cmd : Type := {
  command : Command;
  PersistentPreRun :
    option (Command -> list string -> World -> Outcome unit);
  RunE :
    option (Command -> list string -> World -> Outcome (option error));
  PostRunE :
    option (Command -> list string -> World -> Outcome (option error));
}.

Fixpoint nearest_PersistentPreRun (chain : list Cmd)
  : option (Command -> list string -> World -> Outcome unit) :=
  match chain with
  | [] => None
  | p :: parents =>
      match PersistentPreRun p with
      | Some hook => Some hook
      | None => nearest_PersistentPreRun parents
      end
  end.

Definition execute (c : Cmd) (parents : list Cmd) (args : list string)
  (w : World) : Outcome (option error) :=
  match RunE c with
  | None => Ret (Some ErrHelp) w
  | Some run =>
      bind
        match nearest_PersistentPreRun (c :: parents) with
        | Some hook => hook (command c) args w
        | None => Ret tt w
        end
        (fun _ w =>
           bind (run (command c) args w)
             (fun err w =>
                match err with
                | Some e => Ret (Some e) w
                | None =>
                    match PostRunE c with
                    | Some hook => hook (command c) args w
                    | None => Ret None w
                    end
                end))
  end.

End cobra.

(** ** Packages the file imports

    [helper] and [version] are packages of this repository whose sources
    are not part of this development; tendermint's [rpcserver] is a
    library.  What root.go uses of them is taken as given: the names and
    default values of the shared flags, the configuration loader, the
    [Use] line of the version command, and the default RPC server
    configuration. *)
Record rpcserver_Config : Type := {
  cfg_ReadTimeout : Z;
  cfg_WriteTimeout : Z;
  cfg_MaxHeaderBytes : Z;
}.

Class Imports : Type := {
  TendermintNodeFlag : string;
  HomeFlag : string;
  WithThemisConfigFlag : string;
  DefaultTendermintNode : string;
  DefaultNodeHome : string;
  DefaultMetisChainID : string;
  DefaultLogsType : string;
  DefaultMetricsListenAddr : string;
  DefaultRPCListenAddr : string;
  (** [helper.InitThemisConfig(homeDir)]: it may change the process
      state, report an error, or end the process. *)
  InitThemisConfig : string -> World -> Outcome (option error);
  version_Cmd_Use : string;
  rpcserver_DefaultConfig : rpcserver_Config;
}.

(** What [DecorateWithBridgeRootFlags] leaves behind: the command's
    persistent flags, the flags bound on the viper instance it was
    handed, and what it logged through the logger it was handed. *)
Record Decoration : Type := {
  d_flags : pflag.FlagSet;
  d_viper : gmap string string;
  d_logged : list (string * error);
}.

(** ** root.go *)
Section root.
Context `{Imports}.

(** One declaration of [DecorateWithBridgeRootFlags] on the command's
    persistent flags. *)
Definition declare (name shorthand value : string) (d : Decoration)
  : option Decoration :=
  flags ← pflag.StringP name shorthand value (d_flags d);
  Some {| d_flags := flags; d_viper := d_viper d; d_logged := d_logged d |}.

(** One [if err := v.BindPFlag(name, Lookup(name)); err != nil] block:
    the flag is bound on [v], or the error is logged for [caller]. *)
Definition bind_flag (caller name : string) (d : Decoration) : Decoration :=
  match viper_BindPFlag name (pflag.Lookup (d_flags d) name) (d_viper d) with
  | (v, None) =>
      {| d_flags := d_flags d; d_viper := v; d_logged := d_logged d |}
  | (v, Some err) =>
      {| d_flags := d_flags d; d_viper := v;
         d_logged :=
           d_logged d ++ [(caller +:+ " | BindPFlag | " +:+ name, err)] |}
  end.

(** [DecorateWithBridgeRootFlags]: declare the seven persistent flags,
    the node flag with shorthand n, and bind four of them on [v], in
    the order of the source. *)
Definition DecorateWithBridgeRootFlags (flags : pflag.FlagSet)
  (v : gmap string string) (caller : string) : option Decoration :=
  let d := {| d_flags := flags; d_viper := v; d_logged := [] |} in
  d ← declare TendermintNodeFlag "n" DefaultTendermintNode d;
  let d := bind_flag caller TendermintNodeFlag d in
  d ← declare HomeFlag "" DefaultNodeHome d;
  let d := bind_flag caller HomeFlag d in
  d ← declare bridgeDBFlag "" "" d;
  let d := bind_flag caller bridgeDBFlag d in
  d ← declare metisChainIDFlag "" DefaultMetisChainID d;
  d ← declare logsTypeFlag "" DefaultLogsType d;
  d ← declare metricsServerFlag "" DefaultMetricsListenAddr d;
  d ← declare rpcServerFlag "" DefaultRPCListenAddr d;
  let d := bind_flag caller metisChainIDFlag d in
  Some d.

(** [AdjustBridgeDBValue]: read seven flags (the errors of [GetString]
    are dropped), derive the two paths when they are empty, and write
    the seven values to the global viper instance. *)
Definition AdjustBridgeDBValue (cmd : Command) (v : gmap string string)
  : gmap string string :=
  let tendermintNode := (pflag.GetString (Flags cmd) TendermintNodeFlag).1 in
  let homeValue := (pflag.GetString (Flags cmd) HomeFlag).1 in
  let withThemisConfigValue :=
    (pflag.GetString (Flags cmd) WithThemisConfigFlag).1 in
  let bridgeDBValue := (pflag.GetString (Flags cmd) bridgeDBFlag).1 in
  let bridgeSqliteDBValue :=
    (pflag.GetString (Flags cmd) bridgeSqliteDBFlag).1 in
  let metisChainIDValue :=
    (pflag.GetString (Flags cmd) metisChainIDFlag).1 in
  let logsTypeValue := (pflag.GetString (Flags cmd) logsTypeFlag).1 in
  let bridgeDBValue :=
    if decide (bridgeDBValue = "")
    then filepath.Join [homeValue; "bridge"; "storage"]
    else bridgeDBValue in
  let bridgeSqliteDBValue :=
    if decide (bridgeSqliteDBValue = "")
    then filepath.Join [homeValue; "bridge"; "sqlite"]
    else bridgeSqliteDBValue in
  let v := viper_Set TendermintNodeFlag tendermintNode v in
  let v := viper_Set HomeFlag homeValue v in
  let v := viper_Set WithThemisConfigFlag withThemisConfigValue v in
  let v := viper_Set bridgeDBFlag bridgeDBValue v in
  let v := viper_Set bridgeSqliteDBFlag bridgeSqliteDBValue v in
  let v := viper_Set metisChainIDFlag metisChainIDValue v in
  let v := viper_Set logsTypeFlag logsTypeValue v in
  v.

(** The two paths as [AdjustBridgeDBValue] computes them (lines
    155-162). *)
Definition resolved_bridgeDB (cmd : Command) : string :=
  let bridgeDBValue := (pflag.GetString (Flags cmd) bridgeDBFlag).1 in
  if decide (bridgeDBValue = "")
  then filepath.Join
         [(pflag.GetString (Flags cmd) HomeFlag).1; "bridge"; "storage"]
  else bridgeDBValue.

Definition resolved_bridgeSqliteDB (cmd : Command) : string :=
  let bridgeSqliteDBValue :=
    (pflag.GetString (Flags cmd) bridgeSqliteDBFlag).1 in
  if decide (bridgeSqliteDBValue = "")
  then filepath.Join
         [(pflag.GetString (Flags cmd) HomeFlag).1; "bridge"; "sqlite"]
  else bridgeSqliteDBValue.

(** [initTendermintViperConfig]: no result of its own; whatever the
    loader returns is dropped. *)
Definition initTendermintViperConfig (cmd : Command) (w : World)
  : Outcome unit :=
  let w := set_config (AdjustBridgeDBValue cmd) w in
  bind (InitThemisConfig "" w) (fun _ w => Ret tt w).

(** The body of the goroutine of [initMetrics]; [served] is what ends
    the listen loop. *)
Definition metricsListen (served : error) (w : World) : Outcome unit :=
  match http.ListenAndServe served (metricsServer w) with
  | Some err =>
      let w := logger_Error "failed to start metrics server" err w in
      Exit 1 w
  | None => Ret tt w
  end.

(** [initMetrics].  [cmd.Flag] is nil for an undeclared flag, and
    [http.Handle] panics on a pattern that is registered already. *)
Definition initMetrics (cmd : Command) (w : World) : Outcome unit :=
  let cfg := rpcserver_DefaultConfig in
  match Flags cmd !! metricsServerFlag with
  | None => Panic w
  | Some metricsServerListenAddr =>
      let w :=
        set_metricsServer
          {| http.Addr := metricsServerListenAddr;
             http.ReadTimeout := cfg_ReadTimeout cfg;
             http.ReadHeaderTimeout := cfg_ReadTimeout cfg;
             http.WriteTimeout := cfg_WriteTimeout cfg;
             http.MaxHeaderBytes := cfg_MaxHeaderBytes cfg;
             http.inShutdown := false;
             http.listeners := [];
             http.activeConn := [] |} w in
      if decide ("/metrics" ∈ DefaultServeMux w) then Panic w
      else
        let w := http_Handle "/metrics" w in
        Ret tt (go metricsListenLoop w)
  end.

(** [rootCmd.PersistentPreRun] *)
Definition rootCmd_PersistentPreRun (cmd : Command) (args : list string)
  (w : World) : Outcome unit :=
  if decide (Use cmd ≠ version_Cmd_Use) then
    bind (initTendermintViperConfig cmd w) (fun _ w => initMetrics cmd w)
  else Ret tt w.

(** [rootCmd.PostRunE] *)
Definition rootCmd_PostRunE (cmd : Command) (args : list string)
  (w : World) : Outcome (option error) :=
  let ctx := context.WithTimeout (time.Second * 10) in
  let '(err, srv) := http.Shutdown ctx (metricsServer w) in
  Ret err (set_metricsServer srv (called_Shutdown ctx w)).

(** [rootCmd]: the two hooks and no body of its own. *)
Definition rootCmd (flags : gmap string string) : cobra.Cmd :=
  {| cobra.command := {| Use := "themis-bridge"; Flags := flags |};
     cobra.PersistentPreRun := Some rootCmd_PersistentPreRun;
     cobra.RunE := None;
     cobra.PostRunE := Some rootCmd_PostRunE |}.

(** [BridgeCommands]: decorate [rootCmd], whose flag set is empty when
    the package is loaded, and return it. *)
Definition BridgeCommands (v : gmap string string) (caller : string)
  : option (cobra.Cmd * Decoration) :=
  d ← DecorateWithBridgeRootFlags pflag.empty v caller;
  Some (rootCmd (pflag.formal (d_flags d)), d).

(** The names of the declared and the read flags are pairwise
    different. *)
Definition flag_names_distinct : Prop :=
  NoDup [TendermintNodeFlag; HomeFlag; WithThemisConfigFlag;
         bridgeDBFlag; bridgeSqliteDBFlag; metisChainIDFlag;
         logsTypeFlag; metricsServerFlag; rpcServerFlag].

End root.

(** ** Sample values for the examples *)

Definition sample_config : rpcserver_Config :=
  {| cfg_ReadTimeout := 10 * time.Second;
     cfg_WriteTimeout := 10 * time.Second;
     cfg_MaxHeaderBytes := 1048576 |}.

(** Imports whose loader finds its file. *)
Definition sample_imports : Imports :=
  {| TendermintNodeFlag := "node";
     HomeFlag := "home";
     WithThemisConfigFlag := "with-themis-config";
     DefaultTendermintNode := "tcp://localhost:26657";
     DefaultNodeHome := "/var/lib/themis";
     DefaultMetisChainID := "1088";
     DefaultLogsType := "json";
     DefaultMetricsListenAddr := ":2112";
     DefaultRPCListenAddr := ":8646";
     InitThemisConfig := fun _ w => Ret None w;
     version_Cmd_Use := "version";
     rpcserver_DefaultConfig := sample_config |}.

(** The same imports with a loader that reports a missing file. *)
Definition failing_loader_imports : Imports :=
  {| TendermintNodeFlag := "node";
     HomeFlag := "home";
     WithThemisConfigFlag := "with-themis-config";
     DefaultTendermintNode := "tcp://localhost:26657";
     DefaultNodeHome := "/var/lib/themis";
     DefaultMetisChainID := "1088";
     DefaultLogsType := "json";
     DefaultMetricsListenAddr := ":2112";
     DefaultRPCListenAddr := ":8646";
     InitThemisConfig :=
       fun _ w => Ret (Some (ErrOther "config file not found")) w;
     version_Cmd_Use := "version";
     rpcserver_DefaultConfig := sample_config |}.

(** What [DecorateWithBridgeRootFlags] leaves on a fresh command and a
    fresh viper instance, and the flags it has declared. *)
Definition decorated : Decoration :=
  default {| d_flags := pflag.empty; d_viper := ∅; d_logged := [] |}
    (DecorateWithBridgeRootFlags (H := sample_imports)
       pflag.empty ∅ "themis-bridge").

Definition declared_flags : gmap string string :=
  pflag.formal (d_flags decorated).

(** A flag set on which another flag already owns the shorthand n. *)
Definition shorthand_taken : pflag.FlagSet :=
  {| pflag.formal := {[ "name" := "" ]};
     pflag.shorthands := {[ "n" := "name" ]} |}.

(** The flags of a run with [--home=/data] and nothing else given. *)
Definition sample_flags : gmap string string :=
  default ∅
    (pflag.Parse declared_flags [("home", "/data")]).

(** The flags of a run with two explicit paths; the second flag is one
    that some other part of the program would have to declare. *)
Definition override_flags : gmap string string :=
  default ∅
    (flags ← pflag.String "bridge-sqlite-db" ""
               {| pflag.formal := sample_flags; pflag.shorthands := ∅ |};
     pflag.Parse (pflag.formal flags)
       [("bridge-db", "/custom"); ("bridge-sqlite-db", "/custom/sqlite")]).

Definition start_command : Command :=
  {| Use := "start"; Flags := sample_flags |}.

Definition override_command : Command :=
  {| Use := "start"; Flags := override_flags |}.

Definition version_command : Command :=
  {| Use := "version"; Flags := sample_flags |}.

(** A command with other flags than the seven that are read, and a
    store with an entry of its own. *)
Definition other_command : Command :=
  {| Use := "status";
     Flags := <["metrics-server-addr" := ":9999"]> sample_flags |}.

Definition used_store : gmap string string :=
  {[ "bridge-db" := "/stale"; "custom-key" := "kept" ]}.

(** The process once [initMetrics] has returned for a default run. *)
Definition serving : World :=
  Outcome_world (initMetrics (H := sample_imports) start_command fresh).

(** A body that fails, and one that succeeds. *)
Definition failing_body (cmd : Command) (args : list string) (w : World)
  : Outcome (option error) :=
  Ret (Some (ErrOther "body failed")) w.

Definition succeeding_body (cmd : Command) (args : list string) (w : World)
  : Outcome (option error) :=
  Ret None w.

(** A server with one connection that stays busy for eleven seconds. *)
Definition busy_server : http.Server :=
  {| http.Addr := ":2112"; http.ReadTimeout := 0;
     http.ReadHeaderTimeout := 0; http.WriteTimeout := 0;
     http.MaxHeaderBytes := 0; http.inShutdown := false;
     http.listeners := [ {| http.closeErr := None |} ];
     http.activeConn := [http.StateActive (11 * time.Second)] |}.

(** A server whose listener fails to close. *)
Definition failing_close_server : http.Server :=
  {| http.Addr := ":2112"; http.ReadTimeout := 0;
     http.ReadHeaderTimeout := 0; http.WriteTimeout := 0;
     http.MaxHeaderBytes := 0; http.inShutdown := false;
     http.listeners := [ {| http.closeErr := Some (ErrOther "close") |} ];
     http.activeConn := [] |}.

(** A server with an idle and a shortly busy connection. *)
Definition draining_server : http.Server :=
  {| http.Addr := ":2112"; http.ReadTimeout := 0;
     http.ReadHeaderTimeout := 0; http.WriteTimeout := 0;
     http.MaxHeaderBytes := 0; http.inShutdown := false;
     http.listeners := [ {| http.closeErr := None |} ];
     http.activeConn := [http.StateIdle; http.StateActive time.Second] |}.

(** Closed goals are settled by evaluation. *)
Ltac by_computation := vm_compute; reflexivity.
Ltac decide_by_computation := apply (bool_decide_unpack _); by_computation.

(** * Properties *)

(** ** path/filepath on the paths of the specification *)

Example Join_data_storage :
  filepath.Join ["/data"; "bridge"; "storage"] = "/data/bridge/storage".
Proof. reflexivity. Qed.

Example Join_cleans_home :
  filepath.Join ["/data/../x/./"; "bridge"; "sqlite"] = "/x/bridge/sqlite".
Proof. reflexivity. Qed.

Example Join_empty_home :
  filepath.Join [""; "bridge"; "storage"] = "bridge/storage".
Proof. reflexivity. Qed.

Example Clean_samples :
  filepath.Clean "a/../.." = ".." /\ filepath.Clean "/../a//b/" = "/a/b" /\
  filepath.Clean "/" = "/" /\ filepath.Clean "./" = "." /\
  filepath.Clean "" = ".".
Proof. repeat split; reflexivity. Qed.

(** ** The configuration resolver *)
Section resolver.
Context `{Imports}.

Implicit Types (cmd : Command) (v : gmap string string) (key : string).

Lemma AdjustBridgeDBValue_unfold cmd v :
  AdjustBridgeDBValue cmd v =
  <[logsTypeFlag := (pflag.GetString (Flags cmd) logsTypeFlag).1]>
    (<[metisChainIDFlag :=
         (pflag.GetString (Flags cmd) metisChainIDFlag).1]>
       (<[bridgeSqliteDBFlag := resolved_bridgeSqliteDB cmd]>
          (<[bridgeDBFlag := resolved_bridgeDB cmd]>
             (<[WithThemisConfigFlag :=
                  (pflag.GetString (Flags cmd) WithThemisConfigFlag).1]>
                (<[HomeFlag := (pflag.GetString (Flags cmd) HomeFlag).1]>
                   (<[TendermintNodeFlag :=
                        (pflag.GetString (Flags cmd)
                           TendermintNodeFlag).1]> v)))))).
Proof. reflexivity. Qed.

(** A key that is none of the seven keeps what it had. *)
Lemma AdjustBridgeDBValue_other cmd v key :
  key ∉ [TendermintNodeFlag; HomeFlag; WithThemisConfigFlag;
         bridgeDBFlag; bridgeSqliteDBFlag; metisChainIDFlag;
         logsTypeFlag] ->
  AdjustBridgeDBValue cmd v !! key = v !! key.
Proof.
  intros Hkey. rewrite AdjustBridgeDBValue_unfold.
  rewrite !not_elem_of_cons in Hkey.
  destruct Hkey as (? & ? & ? & ? & ? & ? & ? & _).
  rewrite !lookup_insert_ne by congruence. reflexivity.
Qed.

(** The two paths are written after the keys of [helper], so their
    entries do not depend on how those keys are spelled. *)
Lemma AdjustBridgeDBValue_bridgeDB cmd v :
  AdjustBridgeDBValue cmd v !! bridgeDBFlag = Some (resolved_bridgeDB cmd).
Proof.
  rewrite AdjustBridgeDBValue_unfold.
  rewrite !(lookup_insert_ne _ _ bridgeDBFlag) by discriminate.
  apply lookup_insert_eq.
Qed.

Lemma AdjustBridgeDBValue_bridgeSqliteDB cmd v :
  AdjustBridgeDBValue cmd v !! bridgeSqliteDBFlag =
  Some (resolved_bridgeSqliteDB cmd).
Proof.
  rewrite AdjustBridgeDBValue_unfold.
  rewrite !(lookup_insert_ne _ _ bridgeSqliteDBFlag) by discriminate.
  apply lookup_insert_eq.
Qed.

Lemma AdjustBridgeDBValue_dom cmd v :
  dom (AdjustBridgeDBValue cmd v) =
  {[TendermintNodeFlag; HomeFlag; WithThemisConfigFlag; bridgeDBFlag;
    bridgeSqliteDBFlag; metisChainIDFlag; logsTypeFlag]} ∪ dom v.
Proof.
  rewrite AdjustBridgeDBValue_unfold, !dom_insert_L.
  apply set_eq. intros key.
  rewrite !elem_of_union, !elem_of_singleton. tauto.
Qed.

Lemma AdjustBridgeDBValue_lookup cmd v key :
  flag_names_distinct ->
  key ∈ [TendermintNodeFlag; HomeFlag; WithThemisConfigFlag;
         metisChainIDFlag; logsTypeFlag] ->
  AdjustBridgeDBValue cmd v !! key =
  Some (pflag.GetString (Flags cmd) key).1.
Proof.
  unfold flag_names_distinct. intros Hnames Hkey.
  repeat (apply NoDup_cons in Hnames as [? Hnames]).
  repeat match goal with
         | Hn : _ ∉ _ |- _ =>
             rewrite ?not_elem_of_cons in Hn; decompose [and] Hn; clear Hn
         end.
  rewrite AdjustBridgeDBValue_unfold.
  rewrite !elem_of_cons in Hkey.
  destruct Hkey as [-> | [-> | [-> | [-> | [-> | Hnil]]]]];
    [| | | | | by apply elem_of_nil in Hnil];
    rewrite ?lookup_insert_eq; try reflexivity;
    repeat (rewrite lookup_insert_ne by congruence;
            rewrite ?lookup_insert_eq); reflexivity.
Qed.

(** C3, as amended.  [AdjustBridgeDBValue] writes six keys of the
    configuration table, the node endpoint, the home directory, the
    chain id and the log format with the flag's value as it is, the two
    paths with the flag's value or, when that is empty, the path
    derived from the home directory; it does not write the metrics and
    RPC listen addresses, whose entries stay what they were. *)
Theorem AdjustBridgeDBValue_writes_table (cmd : Command)
  (v : gmap string string) :
  flag_names_distinct ->
  let flag name := (pflag.GetString (Flags cmd) name).1 in
  let v' := AdjustBridgeDBValue cmd v in
  v' !! TendermintNodeFlag = Some (flag TendermintNodeFlag) /\
  v' !! HomeFlag = Some (flag HomeFlag) /\
  v' !! bridgeDBFlag =
    Some (if decide (flag bridgeDBFlag = "")
          then filepath.Join [flag HomeFlag; "bridge"; "storage"]
          else flag bridgeDBFlag) /\
  v' !! bridgeSqliteDBFlag =
    Some (if decide (flag bridgeSqliteDBFlag = "")
          then filepath.Join [flag HomeFlag; "bridge"; "sqlite"]
          else flag bridgeSqliteDBFlag) /\
  v' !! metisChainIDFlag = Some (flag metisChainIDFlag) /\
  v' !! logsTypeFlag = Some (flag logsTypeFlag) /\
  v' !! metricsServerFlag = v !! metricsServerFlag /\
  v' !! rpcServerFlag = v !! rpcServerFlag.
Proof.
  intros Hnames flag v'. subst flag v'.
  assert (Hother : forall key,
             key ∈ [metricsServerFlag; rpcServerFlag] ->
             key ∉ [TendermintNodeFlag; HomeFlag; WithThemisConfigFlag;
                    bridgeDBFlag; bridgeSqliteDBFlag; metisChainIDFlag;
                    logsTypeFlag]).
  { intros key Hkey Hin. unfold flag_names_distinct in Hnames.
    change (NoDup ([TendermintNodeFlag; HomeFlag; WithThemisConfigFlag;
                    bridgeDBFlag; bridgeSqliteDBFlag; metisChainIDFlag;
                    logsTypeFlag] ++ [metricsServerFlag; rpcServerFlag]))
      in Hnames.
    apply NoDup_app in Hnames as (_ & Hdisj & _).
    exact (Hdisj key Hin Hkey). }
  repeat split.
  - apply AdjustBridgeDBValue_lookup; [done | repeat constructor].
  - apply AdjustBridgeDBValue_lookup; [done | repeat constructor].
  - apply AdjustBridgeDBValue_bridgeDB.
  - apply AdjustBridgeDBValue_bridgeSqliteDB.
  - apply AdjustBridgeDBValue_lookup; [done | repeat constructor].
  - apply AdjustBridgeDBValue_lookup; [done | repeat constructor].
  - apply AdjustBridgeDBValue_other, Hother. repeat constructor.
  - apply AdjustBridgeDBValue_other, Hother. repeat constructor.
Qed.

(** C4.  A non-empty value given for bridge-db or for bridge-sqlite-db
    is what the store holds under that key after
    [AdjustBridgeDBValue], whatever the home directory and the rest of
    the flags are. *)
Theorem AdjustBridgeDBValue_override_wins (cmd : Command)
  (v : gmap string string) (key V : string) :
  key = bridgeDBFlag \/ key = bridgeSqliteDBFlag ->
  V <> "" ->
  Flags cmd !! key = Some V ->
  AdjustBridgeDBValue cmd v !! key = Some V.
Proof.
  intros [-> | ->] HV Hflag.
  - rewrite AdjustBridgeDBValue_bridgeDB. unfold resolved_bridgeDB.
    unfold pflag.GetString. rewrite Hflag. simpl.
    destruct (decide (V = "")); congruence.
  - rewrite AdjustBridgeDBValue_bridgeSqliteDB.
    unfold resolved_bridgeSqliteDB.
    unfold pflag.GetString. rewrite Hflag. simpl.
    destruct (decide (V = "")); congruence.
Qed.

(** C5.  With a home directory H and both path flags empty (or never
    declared), the store holds [Join(H, "bridge", "storage")] under
    bridge-db and [Join(H, "bridge", "sqlite")] under
    bridge-sqlite-db. *)
Theorem AdjustBridgeDBValue_derives_paths (cmd : Command)
  (v : gmap string string) (home : string) :
  (pflag.GetString (Flags cmd) HomeFlag).1 = home ->
  (pflag.GetString (Flags cmd) bridgeDBFlag).1 = "" ->
  (pflag.GetString (Flags cmd) bridgeSqliteDBFlag).1 = "" ->
  AdjustBridgeDBValue cmd v !! bridgeDBFlag =
    Some (filepath.Join [home; "bridge"; "storage"]) /\
  AdjustBridgeDBValue cmd v !! bridgeSqliteDBFlag =
    Some (filepath.Join [home; "bridge"; "sqlite"]).
Proof.
  intros Hhome Hdb Hsqlite. split.
  - rewrite AdjustBridgeDBValue_bridgeDB. unfold resolved_bridgeDB.
    rewrite Hdb, Hhome. reflexivity.
  - rewrite AdjustBridgeDBValue_bridgeSqliteDB.
    unfold resolved_bridgeSqliteDB.
    rewrite Hsqlite, Hhome. reflexivity.
Qed.

(** C8.  Running [AdjustBridgeDBValue] a second time on the same flags
    leaves the store as the first run left it. *)
Theorem AdjustBridgeDBValue_idempotent (cmd : Command)
  (v : gmap string string) :
  AdjustBridgeDBValue cmd (AdjustBridgeDBValue cmd v) =
  AdjustBridgeDBValue cmd v.
Proof.
  apply map_eq. intros key.
  rewrite !AdjustBridgeDBValue_unfold, !lookup_insert.
  repeat (case_decide; [reflexivity |]). reflexivity.
Qed.

(** C10.  [AdjustBridgeDBValue] also writes the with-themis-config
    flag's value under that key, and on a store that was empty the keys
    it leaves are exactly seven: node, home, with-themis-config,
    bridge-db, bridge-sqlite-db, metis-chain-id and logs-type. *)
Theorem AdjustBridgeDBValue_seven_keys (cmd : Command) :
  flag_names_distinct ->
  (forall v : gmap string string,
      AdjustBridgeDBValue cmd v !! WithThemisConfigFlag =
      Some (pflag.GetString (Flags cmd) WithThemisConfigFlag).1) /\
  dom (AdjustBridgeDBValue cmd ∅) =
    {[TendermintNodeFlag; HomeFlag; WithThemisConfigFlag; bridgeDBFlag;
      bridgeSqliteDBFlag; metisChainIDFlag; logsTypeFlag]} /\
  size (AdjustBridgeDBValue cmd ∅) = 7%nat.
Proof.
  intros Hnames.
  assert (Hdom : dom (AdjustBridgeDBValue cmd ∅) =
            list_to_set (C := gset string)
              [TendermintNodeFlag; HomeFlag; WithThemisConfigFlag;
               bridgeDBFlag; bridgeSqliteDBFlag; metisChainIDFlag;
               logsTypeFlag]).
  { rewrite AdjustBridgeDBValue_dom, dom_empty_L. simpl.
    apply set_eq. intros key.
    rewrite !elem_of_union, !elem_of_singleton, elem_of_empty. tauto. }
  split; [| split].
  - intros v. apply AdjustBridgeDBValue_lookup; [done | repeat constructor].
  - rewrite Hdom. simpl. apply set_eq. intros key.
    rewrite !elem_of_union, !elem_of_singleton, elem_of_empty. tauto.
  - rewrite <- size_dom, Hdom, size_list_to_set; [reflexivity |].
    unfold flag_names_distinct in Hnames.
    change (NoDup ([TendermintNodeFlag; HomeFlag; WithThemisConfigFlag;
                    bridgeDBFlag; bridgeSqliteDBFlag; metisChainIDFlag;
                    logsTypeFlag] ++ [metricsServerFlag; rpcServerFlag]))
      in Hnames.
    by apply NoDup_app in Hnames as (? & _ & _).
Qed.

End resolver.

(** ** The metrics server *)
Section metrics.

Implicit Types (srv : http.Server) (w : World).

Lemma Shutdown_zero (ctx : Z) :
  http.Shutdown ctx http.zero =
  (None,
   {| http.Addr := ""; http.ReadTimeout := 0; http.ReadHeaderTimeout := 0;
      http.WriteTimeout := 0; http.MaxHeaderBytes := 0;
      http.inShutdown := true; http.listeners := [];
      http.activeConn := [] |}).
Proof. reflexivity. Qed.

(** After a shutdown that reported no error nothing is left to wait
    for, and the listeners closed without error. *)
Lemma Shutdown_success_inv (ctx : Z) srv :
  (http.Shutdown ctx srv).1 = None ->
  http.activeConn (http.Shutdown ctx srv).2 = [] /\
  http.closeListeners (http.listeners (http.Shutdown ctx srv).2) = None.
Proof.
  unfold http.Shutdown. simpl.
  destruct (omap (http.drain ctx) (http.activeConn srv)) as [| c left].
  - intros _. split; reflexivity.
  - discriminate.
Qed.

Lemma Shutdown_marks (ctx : Z) srv :
  http.inShutdown (http.Shutdown ctx srv).2 = true.
Proof. reflexivity. Qed.

Lemma rootCmd_PostRunE_unfold (cmd : Command) (args : list string) w :
  rootCmd_PostRunE cmd args w =
  Ret (http.Shutdown (10 * time.Second) (metricsServer w)).1
    (set_metricsServer
       (http.Shutdown (10 * time.Second) (metricsServer w)).2
       (called_Shutdown (10 * time.Second) w)).
Proof.
  unfold rootCmd_PostRunE, context.WithTimeout.
  rewrite Z.mul_comm.
  destruct (http.Shutdown (10 * time.Second) (metricsServer w)).
  reflexivity.
Qed.

(** C7.  On a metrics server that was never started the post-run
    hook's shutdown returns no error, and so does a second one; and
    for any server, a shutdown that follows one that returned no error
    returns no error either. *)
Theorem Shutdown_never_started_and_again :
  (forall (cmd : Command) (args : list string) w,
      metricsServer w = http.zero ->
      exists w1 w2,
        rootCmd_PostRunE cmd args w = Ret None w1 /\
        rootCmd_PostRunE cmd args w1 = Ret None w2) /\
  (forall (ctx1 ctx2 : Z) srv,
      (http.Shutdown ctx1 srv).1 = None ->
      (http.Shutdown ctx2 (http.Shutdown ctx1 srv).2).1 = None).
Proof.
  split.
  - intros cmd args w Hzero. eexists _, _.
    rewrite !rootCmd_PostRunE_unfold. simpl. rewrite Hzero.
    split; reflexivity.
  - intros ctx1 ctx2 srv Hfirst.
    apply Shutdown_success_inv in Hfirst as [Hconn Hln].
    unfold http.Shutdown at 1. simpl. simpl in Hconn, Hln.
    rewrite Hconn. simpl. exact Hln.
Qed.

(** Whatever ends the listen loop, the goroutine logs it and ends the
    process with code 1. *)
Lemma metricsListen_fatal (served : error) w :
  exists err,
    http.ListenAndServe served (metricsServer w) = Some err /\
    metricsListen served w =
    Exit 1 (logger_Error "failed to start metrics server" err w).
Proof.
  unfold metricsListen, http.ListenAndServe.
  destruct (http.inShutdown (metricsServer w)); eexists; split; reflexivity.
Qed.

(** C2, at the input where the code departs from it.  When the listen
    loop ends with [ErrServerClosed], the signal of a server that is
    shutting down, the goroutine logs the error and ends the process
    with code 1, as it does for every other error. *)
Theorem metricsListen_ErrServerClosed (w : World) :
  metricsListen ErrServerClosed w =
  Exit 1
    (logger_Error "failed to start metrics server" ErrServerClosed w).
Proof.
  unfold metricsListen, http.ListenAndServe.
  destruct (http.inShutdown (metricsServer w)); reflexivity.
Qed.

(** Once the post-run hook has called Shutdown, the listen loop can
    only end with [ErrServerClosed], and the goroutine exits with 1. *)
Lemma metricsListen_after_PostRunE (cmd : Command) (args : list string)
  (served : error) w (err : option error) (w' : World) :
  rootCmd_PostRunE cmd args w = Ret err w' ->
  metricsListen served w' =
  Exit 1
    (logger_Error "failed to start metrics server" ErrServerClosed w').
Proof.
  rewrite rootCmd_PostRunE_unfold. intros [= _ <-]. reflexivity.
Qed.

End metrics.

(** ** The command lifecycle *)
Section lifecycle.
Context `{Imports}.

Implicit Types (cmd : Command) (args : list string) (w : World).

Lemma initTendermintViperConfig_config cmd w (w' : World) :
  InitThemisConfig "" (set_config (AdjustBridgeDBValue cmd) w) =
    Ret None w' ->
  initTendermintViperConfig cmd w = Ret tt w'.
Proof. unfold initTendermintViperConfig. intros ->. reflexivity. Qed.

(** C9, as amended.  [initTendermintViperConfig] calls the loader with
    the empty string on the store [AdjustBridgeDBValue] has just
    written.  It has no result: what the loader reports is dropped,
    and the call returns, exits or panics as the loader does. *)
Theorem initTendermintViperConfig_drops_report cmd w :
  initTendermintViperConfig cmd w =
  match InitThemisConfig "" (set_config (AdjustBridgeDBValue cmd) w) with
  | Ret _ w' => Ret tt w'
  | Exit code w' => Exit code w'
  | Panic w' => Panic w'
  end.
Proof.
  unfold initTendermintViperConfig.
  destruct (InitThemisConfig "" (set_config (AdjustBridgeDBValue cmd) w));
    reflexivity.
Qed.

(** What a pre-run that gets through leaves behind: the resolved
    store as the loader left it, the metrics server on the flag's
    address with the default time-outs, the route, and the listen
    goroutine. *)
Lemma initMetrics_starts cmd w (addr : string) :
  Flags cmd !! metricsServerFlag = Some addr ->
  "/metrics" ∉ DefaultServeMux w ->
  exists w',
    initMetrics cmd w = Ret tt w' /\
    config w' = config w /\
    http.Addr (metricsServer w') = addr /\
    http.ReadTimeout (metricsServer w') =
      cfg_ReadTimeout rpcserver_DefaultConfig /\
    http.ReadHeaderTimeout (metricsServer w') =
      cfg_ReadTimeout rpcserver_DefaultConfig /\
    http.WriteTimeout (metricsServer w') =
      cfg_WriteTimeout rpcserver_DefaultConfig /\
    http.MaxHeaderBytes (metricsServer w') =
      cfg_MaxHeaderBytes rpcserver_DefaultConfig /\
    http.inShutdown (metricsServer w') = false /\
    DefaultServeMux w' = (DefaultServeMux w ++ ["/metrics"])%list /\
    goroutines w' = (goroutines w ++ [metricsListenLoop])%list.
Proof.
  intros Hflag Hmux. unfold initMetrics. rewrite Hflag. simpl.
  destruct (decide ("/metrics" ∈ DefaultServeMux w)) as [Hin | _];
    [contradiction |].
  eexists. repeat split.
Qed.

(** C6.  For the version command the pre-run hook returns at once and
    leaves the process state as it was: nothing is written to the
    store, no goroutine is started, and the post-run hook leaves the
    store alone as well, so a store that was empty is empty after the
    run.  For any other command the hook first resolves the
    configuration: the loader is called on the store
    [AdjustBridgeDBValue] has written, with an entry under each of the
    seven keys and the two paths resolved.  When the loader returns, the
    hook starts the metrics server: the server value is assigned with
    the flag's address and the default time-outs, the route is
    registered and the listen goroutine started.  It ends early only as
    the loader ends (exit or panic), or with a panic when the flag is
    not declared or the route is taken. *)
Theorem rootCmd_PersistentPreRun_gate cmd args w :
  (Use cmd = version_Cmd_Use ->
   rootCmd_PersistentPreRun cmd args w = Ret tt w /\
   forall (err : option error) (w' : World),
     rootCmd_PostRunE cmd args w = Ret err w' ->
     config w' = config w /\ goroutines w' = goroutines w /\
     (config w = ∅ -> config w' = ∅)) /\
  (Use cmd <> version_Cmd_Use ->
   let resolved := set_config (AdjustBridgeDBValue cmd) w in
   (forall key : string,
       key ∈ [TendermintNodeFlag; HomeFlag; WithThemisConfigFlag;
              bridgeDBFlag; bridgeSqliteDBFlag; metisChainIDFlag;
              logsTypeFlag] ->
       is_Some (config resolved !! key)) /\
   config resolved !! bridgeDBFlag = Some (resolved_bridgeDB cmd) /\
   config resolved !! bridgeSqliteDBFlag =
     Some (resolved_bridgeSqliteDB cmd) /\
   match InitThemisConfig "" resolved with
   | Ret _ w2 =>
       match Flags cmd !! metricsServerFlag with
       | Some addr =>
           if decide ("/metrics" ∈ DefaultServeMux w2)
           then exists w3 : World,
                  rootCmd_PersistentPreRun cmd args w = Panic w3
           else exists w3 : World,
                  rootCmd_PersistentPreRun cmd args w = Ret tt w3 /\
                  config w3 = config w2 /\
                  metricsServer w3 =
                    {| http.Addr := addr;
                       http.ReadTimeout :=
                         cfg_ReadTimeout rpcserver_DefaultConfig;
                       http.ReadHeaderTimeout :=
                         cfg_ReadTimeout rpcserver_DefaultConfig;
                       http.WriteTimeout :=
                         cfg_WriteTimeout rpcserver_DefaultConfig;
                       http.MaxHeaderBytes :=
                         cfg_MaxHeaderBytes rpcserver_DefaultConfig;
                       http.inShutdown := false;
                       http.listeners := [];
                       http.activeConn := [] |} /\
                  DefaultServeMux w3 =
                    (DefaultServeMux w2 ++ ["/metrics"])%list /\
                  goroutines w3 =
                    (goroutines w2 ++ [metricsListenLoop])%list
       | None => rootCmd_PersistentPreRun cmd args w = Panic w2
       end
   | Exit code w2 => rootCmd_PersistentPreRun cmd args w = Exit code w2
   | Panic w2 => rootCmd_PersistentPreRun cmd args w = Panic w2
   end).
Proof.
  split; intros Huse.
  - unfold rootCmd_PersistentPreRun.
    destruct (decide (Use cmd ≠ version_Cmd_Use)) as [Hne | _];
      [contradiction |].
    split; [reflexivity |].
    intros err w'. rewrite rootCmd_PostRunE_unfold.
    intros [= _ <-]. repeat split. intros Hempty. exact Hempty.
  - intros resolved. unfold rootCmd_PersistentPreRun.
    destruct (decide (Use cmd ≠ version_Cmd_Use)) as [_ | Heq];
      [| contradiction].
    split; [| split; [| split]].
    + intros key Hkey. apply elem_of_dom. unfold resolved. simpl.
      rewrite AdjustBridgeDBValue_dom. apply elem_of_union_l.
      rewrite !elem_of_cons, elem_of_nil in Hkey.
      rewrite !elem_of_union, !elem_of_singleton. tauto.
    + apply AdjustBridgeDBValue_bridgeDB.
    + apply AdjustBridgeDBValue_bridgeSqliteDB.
    + unfold initTendermintViperConfig. fold resolved.
      destruct (InitThemisConfig "" resolved) as [r w2 | code w2 | w2];
        simpl; [| reflexivity | reflexivity].
      unfold initMetrics.
      destruct (Flags cmd !! metricsServerFlag) as [addr |];
        [| reflexivity].
      simpl. destruct (decide ("/metrics" ∈ DefaultServeMux w2)).
      * eexists. reflexivity.
      * eexists. repeat split.
Qed.

(** C1, where the code departs from it.  [rootCmd] starts the metrics
    server from a persistent pre-run hook, which every subcommand
    inherits, but stops it from [PostRunE], which is the root's own, and
    the root has no body.  So for a subcommand without hooks of its own
    the run is over when the body returns, with the body's result,
    success or failure, and in the state the body left: Shutdown has
    not been called, where a run of the hook would have recorded a call
    with a ten-second context.  And the root by itself only asks for
    help, without running a hook. *)
Theorem rootCmd_PostRunE_not_reached (flags : gmap string string) sub
  (run : Command -> list string -> World -> Outcome (option error))
  args w (w1 : World) (r : option error) (w2 : World) :
  rootCmd_PersistentPreRun sub args w = Ret tt w1 ->
  run sub args w1 = Ret r w2 ->
  cobra.execute
    {| cobra.command := sub; cobra.PersistentPreRun := None;
       cobra.RunE := Some run; cobra.PostRunE := None |}
    [rootCmd flags] args w = Ret r w2 /\
  shutdownCalls (Outcome_world (rootCmd_PostRunE sub args w2)) =
    (shutdownCalls w2 ++ [10 * time.Second])%list /\
  cobra.execute (rootCmd flags) [] args w = Ret (Some ErrHelp) w.
Proof.
  intros Hpre Hrun. split; [| split].
  - unfold cobra.execute. simpl. rewrite Hpre. simpl. rewrite Hrun. simpl.
    destruct r; reflexivity.
  - rewrite rootCmd_PostRunE_unfold. reflexivity.
  - reflexivity.
Qed.

End lifecycle.

(** ** The properties on a sample run *)

Lemma sample_names_distinct : flag_names_distinct (H := sample_imports).
Proof. unfold flag_names_distinct. decide_by_computation. Qed.

(** The end-to-end cases of the specification. *)
Example data_home_storage :
  AdjustBridgeDBValue (H := sample_imports) start_command ∅ !! "bridge-db"
  = Some "/data/bridge/storage".
Proof. by_computation. Qed.

Example custom_storage :
  AdjustBridgeDBValue (H := sample_imports) override_command ∅ !! "bridge-db"
  = Some "/custom".
Proof. by_computation. Qed.

(** [DecorateWithBridgeRootFlags] declares bridge-db but neither
    bridge-sqlite-db nor with-themis-config, so with its flags alone the
    sqlite path is always the derived one. *)
Example sqlite_flag_not_declared :
  sample_flags !! bridgeSqliteDBFlag = None /\
  sample_flags !! "with-themis-config" = None /\
  pflag.Parse sample_flags [("bridge-sqlite-db", "/custom/sqlite")] = None /\
  AdjustBridgeDBValue (H := sample_imports) start_command ∅
    !! bridgeSqliteDBFlag = Some "/data/bridge/sqlite".
Proof. repeat split; by_computation. Qed.

(** C3 fails as stated: on the flags of a default run, where the metrics
    and RPC addresses have their values, [AdjustBridgeDBValue] leaves no
    entry for either address in the store. *)
Lemma AdjustBridgeDBValue_skips_listen_addrs :
  Flags start_command !! metricsServerFlag = Some ":2112" /\
  Flags start_command !! rpcServerFlag = Some ":8646" /\
  ~ (forall key : string,
        key ∈ ["node"; "home"; "bridge-db"; "bridge-sqlite-db";
               "metis-chain-id"; "logs-type"; "metrics-server-addr";
               "rpc-server-addr"] ->
        is_Some
          (AdjustBridgeDBValue (H := sample_imports) start_command ∅
             !! key)).
Proof.
  split; [by_computation |]. split; [by_computation |].
  intros Hall.
  destruct (Hall "metrics-server-addr") as [value Hvalue].
  - repeat constructor.
  - vm_compute in Hvalue. discriminate Hvalue.
Qed.

Lemma AdjustBridgeDBValue_writes_table_witness :
  flag_names_distinct (H := sample_imports) /\
  AdjustBridgeDBValue (H := sample_imports) start_command ∅ !! "home"
    = Some "/data" /\
  AdjustBridgeDBValue (H := sample_imports) start_command ∅ !! "bridge-db"
    = Some "/data/bridge/storage" /\
  AdjustBridgeDBValue (H := sample_imports) start_command ∅
    !! "metrics-server-addr" = None.
Proof.
  assert (Hnames : flag_names_distinct (H := sample_imports))
    by (unfold flag_names_distinct; decide_by_computation).
  split; [exact Hnames |].
  destruct (AdjustBridgeDBValue_writes_table (H := sample_imports)
              start_command ∅ Hnames)
    as (_ & Hhome & Hdb & _ & _ & _ & Hmetrics & _).
  split; [exact Hhome |]. split; [exact Hdb | exact Hmetrics].
Defined.

Lemma AdjustBridgeDBValue_override_wins_witness :
  "/custom/sqlite" <> "" /\
  Flags override_command !! bridgeSqliteDBFlag = Some "/custom/sqlite" /\
  AdjustBridgeDBValue (H := sample_imports) override_command ∅
    !! bridgeSqliteDBFlag = Some "/custom/sqlite".
Proof.
  split; [discriminate |]. split; [by_computation |].
  apply (AdjustBridgeDBValue_override_wins (H := sample_imports)
           override_command ∅ bridgeSqliteDBFlag "/custom/sqlite").
  - right. reflexivity.
  - discriminate.
  - by_computation.
Defined.

Lemma AdjustBridgeDBValue_derives_paths_witness :
  AdjustBridgeDBValue (H := sample_imports) start_command ∅ !! bridgeDBFlag
    = Some "/data/bridge/storage" /\
  AdjustBridgeDBValue (H := sample_imports) start_command ∅
    !! bridgeSqliteDBFlag = Some "/data/bridge/sqlite".
Proof.
  apply (AdjustBridgeDBValue_derives_paths (H := sample_imports)
           start_command ∅ "/data"); by_computation.
Defined.

Lemma AdjustBridgeDBValue_seven_keys_witness :
  flag_names_distinct (H := sample_imports) /\
  AdjustBridgeDBValue (H := sample_imports) start_command ∅
    !! "with-themis-config" = Some "" /\
  dom (AdjustBridgeDBValue (H := sample_imports) start_command ∅) =
    {["node"; "home"; "with-themis-config"; "bridge-db";
      "bridge-sqlite-db"; "metis-chain-id"; "logs-type"]} /\
  size (AdjustBridgeDBValue (H := sample_imports) start_command ∅) = 7%nat.
Proof.
  assert (Hnames : flag_names_distinct (H := sample_imports))
    by (unfold flag_names_distinct; decide_by_computation).
  split; [exact Hnames |].
  destruct (AdjustBridgeDBValue_seven_keys (H := sample_imports)
              start_command Hnames) as (Hwith & Hdom & Hsize).
  split; [exact (Hwith ∅) |]. split; [exact Hdom | exact Hsize].
Defined.

(** A shutdown that runs into its deadline, and one that drains. *)
Example Shutdown_busy_server :
  (http.Shutdown (10 * time.Second) busy_server).1 = Some DeadlineExceeded /\
  http.activeConn (http.Shutdown (10 * time.Second) busy_server).2 =
    [http.StateActive time.Second].
Proof. split; reflexivity. Qed.

Example Shutdown_draining_server :
  (http.Shutdown (10 * time.Second) draining_server).1 = None /\
  http.activeConn (http.Shutdown (10 * time.Second) draining_server).2 = [].
Proof. split; reflexivity. Qed.

(** A close error is reported once: the listener is no longer tracked
    when Shutdown is called again. *)
Example Shutdown_failing_close :
  (http.Shutdown (10 * time.Second) failing_close_server).1 =
    Some (ErrOther "close") /\
  (http.Shutdown (10 * time.Second)
     (http.Shutdown (10 * time.Second) failing_close_server).2).1 = None.
Proof. split; reflexivity. Qed.

Lemma Shutdown_never_started_and_again_witness :
  (exists w1 w2,
      rootCmd_PostRunE version_command [] fresh = Ret None w1 /\
      rootCmd_PostRunE version_command [] w1 = Ret None w2) /\
  (http.Shutdown (10 * time.Second) draining_server).1 = None /\
  (http.Shutdown (10 * time.Second)
     (http.Shutdown (10 * time.Second) draining_server).2).1 = None.
Proof.
  destruct Shutdown_never_started_and_again as [Hidle Hagain].
  split; [| split].
  - apply (Hidle version_command [] fresh). reflexivity.
  - reflexivity.
  - apply (Hagain (10 * time.Second) (10 * time.Second) draining_server).
    reflexivity.
Defined.

Lemma rootCmd_PersistentPreRun_gate_witness :
  Use version_command = version_Cmd_Use (Imports := sample_imports) /\
  rootCmd_PersistentPreRun (H := sample_imports) version_command [] fresh
    = Ret tt fresh /\
  Use start_command <> version_Cmd_Use (Imports := sample_imports) /\
  config
    (set_config (AdjustBridgeDBValue (H := sample_imports) start_command)
       fresh) !! bridgeDBFlag = Some "/data/bridge/storage" /\
  exists w3 : World,
    rootCmd_PersistentPreRun (H := sample_imports) start_command [] fresh
      = Ret tt w3 /\
    goroutines w3 = [metricsListenLoop].
Proof.
  destruct (rootCmd_PersistentPreRun_gate (H := sample_imports)
              version_command [] fresh) as [Hversion _].
  destruct (rootCmd_PersistentPreRun_gate (H := sample_imports)
              start_command [] fresh) as [_ Hstart].
  split; [reflexivity |]. split; [exact (proj1 (Hversion eq_refl)) |].
  split; [discriminate |].
  destruct (Hstart ltac:(discriminate)) as (_ & Hdb & _ & Hrun).
  split; [exact Hdb |].
  destruct Hrun as (w3 & Hret & _ & _ & _ & Hgo).
  exists w3. split; [exact Hret | exact Hgo].
Defined.

(** The version command leaves an empty store empty through both hooks;
    the start command leaves the resolved store, the server on the
    default address, the route and the goroutine. *)
Example version_run_leaves_store_empty :
  exists w,
    bind (rootCmd_PersistentPreRun (H := sample_imports)
            version_command [] fresh)
      (fun _ w1 => rootCmd_PostRunE version_command [] w1) = Ret None w /\
    config w = ∅ /\ goroutines w = [] /\ DefaultServeMux w = [].
Proof. eexists. split; [by_computation |]. repeat split. Qed.

Example start_run_resolves_and_starts :
  exists w,
    rootCmd_PersistentPreRun (H := sample_imports) start_command [] fresh
      = Ret tt w /\
    config w !! "bridge-db" = Some "/data/bridge/storage" /\
    http.Addr (metricsServer w) = ":2112" /\
    DefaultServeMux w = ["/metrics"] /\
    goroutines w = [metricsListenLoop].
Proof. eexists. split; [by_computation |]. repeat split. Qed.

(** C9 fails as stated: with a loader that reports a missing file,
    [initTendermintViperConfig] hands its caller the same result as with
    a loader that reports nothing; no error value reaches the caller. *)
Lemma initTendermintViperConfig_swallows_report :
  let w1 :=
    set_config (AdjustBridgeDBValue (H := sample_imports) start_command)
      fresh in
  InitThemisConfig (Imports := failing_loader_imports) "" w1 =
    Ret (Some (ErrOther "config file not found")) w1 /\
  initTendermintViperConfig (H := failing_loader_imports)
    start_command fresh = Ret tt w1 /\
  initTendermintViperConfig (H := sample_imports)
    start_command fresh = Ret tt w1.
Proof. repeat split. Qed.

(** A start subcommand under the root: the pre-run hook has started the
    metrics goroutine, the body has returned, with success or with an
    error, and the run is over without a Shutdown call. *)
Lemma rootCmd_PostRunE_not_reached_witness :
  exists w1 : World,
    rootCmd_PersistentPreRun (H := sample_imports) start_command [] fresh
      = Ret tt w1 /\
    cobra.execute
      {| cobra.command := start_command; cobra.PersistentPreRun := None;
         cobra.RunE := Some succeeding_body; cobra.PostRunE := None |}
      [rootCmd (H := sample_imports) sample_flags] [] fresh
    = Ret None w1 /\
    cobra.execute
      {| cobra.command := start_command; cobra.PersistentPreRun := None;
         cobra.RunE := Some failing_body; cobra.PostRunE := None |}
      [rootCmd (H := sample_imports) sample_flags] [] fresh
    = Ret (Some (ErrOther "body failed")) w1 /\
    goroutines w1 = [metricsListenLoop] /\
    shutdownCalls w1 = [] /\
    http.inShutdown (metricsServer w1) = false.
Proof.
  assert (Hpre :
    rootCmd_PersistentPreRun (H := sample_imports) start_command [] fresh
    = Ret tt
        (Outcome_world
           (rootCmd_PersistentPreRun (H := sample_imports)
              start_command [] fresh))) by by_computation.
  eexists. split; [exact Hpre |].
  split; [| split].
  - exact (proj1 (rootCmd_PostRunE_not_reached (H := sample_imports)
                    sample_flags start_command succeeding_body [] fresh
                    _ None _ Hpre eq_refl)).
  - exact (proj1 (rootCmd_PostRunE_not_reached (H := sample_imports)
                    sample_flags start_command failing_body [] fresh
                    _ (Some (ErrOther "body failed")) _ Hpre eq_refl)).
  - repeat split.
Defined.

(** * Further properties of root.go *)

(** ** Paths that [filepath.Join] gives *)
Section paths.

Implicit Types (path e : string) (out es : list string).

Lemma Clean_nonempty path : filepath.Clean path <> "".
Proof.
  unfold filepath.Clean.
  destruct (decide (path = "")); [discriminate |].
  destruct (filepath.is_rooted path); [discriminate |].
  destruct (decide (_ = "")); [discriminate | assumption].
Qed.

Lemma Join_three_nonempty (home component : string) :
  filepath.Join [home; "bridge"; component] <> "".
Proof.
  unfold filepath.Join.
  destruct (decide (home = "")); [| apply Clean_nonempty].
  destruct (decide ("bridge" = "")); [discriminate | apply Clean_nonempty].
Qed.

Lemma elements_not_rooted path :
  Forall (fun e => filepath.is_rooted e = false) (filepath.elements path).
Proof.
  induction path as [| c rest IH]; simpl.
  - repeat constructor.
  - destruct (Ascii.eqb c filepath.Separator) eqn:Hc.
    + constructor; [reflexivity | exact IH].
    + destruct (filepath.elements rest) as [| e es].
      * constructor; [exact Hc | constructor].
      * apply Forall_cons in IH as [_ IH].
        constructor; [exact Hc | exact IH].
Qed.

Lemma clean_step_proper (rooted : bool) out e :
  filepath.is_rooted e = false ->
  Forall proper_element out ->
  Forall proper_element (filepath.clean_step rooted out e).
Proof.
  intros He Hout. unfold filepath.clean_step.
  destruct (decide (e = "")); [exact Hout |].
  destruct (decide (e = ".")); [exact Hout |].
  destruct (decide (e = "..")) as [-> |].
  - destruct out as [| top below].
    + destruct rooted; repeat constructor. discriminate.
    + destruct (decide (top = "..")).
      * constructor; [split; [discriminate | reflexivity] | exact Hout].
      * by apply Forall_cons in Hout as [_ Hout].
  - constructor; [split; assumption | exact Hout].
Qed.

Lemma clean_loop_proper (rooted : bool) es out :
  Forall (fun e => filepath.is_rooted e = false) es ->
  Forall proper_element out ->
  Forall proper_element (foldl (filepath.clean_step rooted) out es).
Proof.
  revert out. induction es as [| e es IH]; intros out Hes Hout; simpl.
  - exact Hout.
  - apply Forall_cons in Hes as [He Hes].
    apply IH; [exact Hes | by apply clean_step_proper].
Qed.

Lemma join_elements_not_rooted es :
  Forall proper_element es ->
  filepath.is_rooted (filepath.join_elements es) = false.
Proof.
  intros Hes. destruct es as [| e es]; [reflexivity |].
  apply Forall_cons in Hes as [[Hne Hroot] _].
  destruct e as [| c e]; [congruence |].
  destruct es; simpl; exact Hroot.
Qed.

(** [Clean] keeps a path absolute or relative as it was. *)
Lemma Clean_rooted path :
  filepath.is_rooted (filepath.Clean path) = filepath.is_rooted path.
Proof.
  unfold filepath.Clean.
  destruct (decide (path = "")) as [-> |]; [reflexivity |].
  destruct (filepath.is_rooted path) eqn:Hrooted; [reflexivity |].
  destruct (decide (_ = "")); [reflexivity |].
  apply join_elements_not_rooted, List.Forall_rev.
  apply clean_loop_proper; [apply elements_not_rooted | constructor].
Qed.

Lemma Join_three_rooted (home component : string) :
  filepath.is_rooted (filepath.Join [home; "bridge"; component]) =
  filepath.is_rooted home.
Proof.
  unfold filepath.Join.
  destruct (decide (home = "")) as [-> | Hhome].
  - destruct (decide ("bridge" = "")); [discriminate |].
    rewrite Clean_rooted. reflexivity.
  - rewrite Clean_rooted. destruct home; [congruence | reflexivity].
Qed.

End paths.

(** ** More on the configuration resolver *)
Section resolver_more.
Context `{Imports}.

Implicit Types (cmd : Command) (v : gmap string string) (key : string).

(** X1.  Whatever the flags and the home directory are, the two paths
    [AdjustBridgeDBValue] stores are never the empty string. *)
Theorem AdjustBridgeDBValue_paths_nonempty cmd v :
  exists storage sqlite : string,
    AdjustBridgeDBValue cmd v !! bridgeDBFlag = Some storage /\
    storage <> "" /\
    AdjustBridgeDBValue cmd v !! bridgeSqliteDBFlag = Some sqlite /\
    sqlite <> "".
Proof.
  exists (resolved_bridgeDB cmd), (resolved_bridgeSqliteDB cmd).
  split; [apply AdjustBridgeDBValue_bridgeDB |].
  split.
  { unfold resolved_bridgeDB. simpl.
    destruct (decide (_ = "")); [apply Join_three_nonempty | assumption]. }
  split; [apply AdjustBridgeDBValue_bridgeSqliteDB |].
  unfold resolved_bridgeSqliteDB. simpl.
  destruct (decide (_ = "")); [apply Join_three_nonempty | assumption].
Qed.

(** X2.  A derived path is absolute exactly when the home directory is:
    with an empty bridge-db (bridge-sqlite-db) flag the stored path
    starts with a separator if and only if the home flag's value does. *)
Theorem AdjustBridgeDBValue_derived_rooted cmd v :
  let home := (pflag.GetString (Flags cmd) HomeFlag).1 in
  ((pflag.GetString (Flags cmd) bridgeDBFlag).1 = "" ->
   exists storage : string,
     AdjustBridgeDBValue cmd v !! bridgeDBFlag = Some storage /\
     filepath.is_rooted storage = filepath.is_rooted home) /\
  ((pflag.GetString (Flags cmd) bridgeSqliteDBFlag).1 = "" ->
   exists sqlite : string,
     AdjustBridgeDBValue cmd v !! bridgeSqliteDBFlag = Some sqlite /\
     filepath.is_rooted sqlite = filepath.is_rooted home).
Proof.
  intros home. split; intros Hempty; eexists.
  - rewrite AdjustBridgeDBValue_bridgeDB. unfold resolved_bridgeDB.
    rewrite Hempty. simpl. split; [reflexivity | apply Join_three_rooted].
  - rewrite AdjustBridgeDBValue_bridgeSqliteDB.
    unfold resolved_bridgeSqliteDB.
    rewrite Hempty. simpl. split; [reflexivity | apply Join_three_rooted].
Qed.

(** X3.  The entries [AdjustBridgeDBValue] writes depend on the values
    of the seven flags it reads and on nothing else: two commands that
    agree on these flags leave the same entry under each written key,
    whatever their other flags, their [Use] lines and the stores they
    started from. *)
Theorem AdjustBridgeDBValue_depends_on_read_flags cmd cmd' v v' key :
  (forall name : string,
      name ∈ [TendermintNodeFlag; HomeFlag; WithThemisConfigFlag;
              bridgeDBFlag; bridgeSqliteDBFlag; metisChainIDFlag;
              logsTypeFlag] ->
      (pflag.GetString (Flags cmd) name).1 =
      (pflag.GetString (Flags cmd') name).1) ->
  key ∈ [TendermintNodeFlag; HomeFlag; WithThemisConfigFlag;
         bridgeDBFlag; bridgeSqliteDBFlag; metisChainIDFlag;
         logsTypeFlag] ->
  AdjustBridgeDBValue cmd v !! key = AdjustBridgeDBValue cmd' v' !! key.
Proof.
  intros Hflags Hkey.
  rewrite !AdjustBridgeDBValue_unfold.
  unfold resolved_bridgeDB, resolved_bridgeSqliteDB. simpl.
  rewrite !(Hflags TendermintNodeFlag), !(Hflags HomeFlag),
    !(Hflags WithThemisConfigFlag), !(Hflags bridgeDBFlag),
    !(Hflags bridgeSqliteDBFlag), !(Hflags metisChainIDFlag),
    !(Hflags logsTypeFlag) by (repeat constructor).
  rewrite !lookup_insert.
  repeat (case_decide; [reflexivity |]).
  rewrite !elem_of_cons in Hkey. rewrite elem_of_nil in Hkey.
  intuition congruence.
Qed.

(** X4.  [AdjustBridgeDBValue] removes nothing from the store, and an
    entry whose value it changes is under one of the seven keys it
    writes. *)
Theorem AdjustBridgeDBValue_keeps_entries cmd v key :
  (is_Some (v !! key) -> is_Some (AdjustBridgeDBValue cmd v !! key)) /\
  (AdjustBridgeDBValue cmd v !! key <> v !! key ->
   key ∈ [TendermintNodeFlag; HomeFlag; WithThemisConfigFlag;
          bridgeDBFlag; bridgeSqliteDBFlag; metisChainIDFlag;
          logsTypeFlag]).
Proof.
  split.
  - intros Hin. apply elem_of_dom. rewrite AdjustBridgeDBValue_dom.
    apply elem_of_union_r, elem_of_dom, Hin.
  - intros Hchanged.
    destruct (decide (key ∈ [TendermintNodeFlag; HomeFlag;
                             WithThemisConfigFlag; bridgeDBFlag;
                             bridgeSqliteDBFlag; metisChainIDFlag;
                             logsTypeFlag])) as [Hin | Hout];
      [exact Hin |].
    destruct Hchanged. by apply AdjustBridgeDBValue_other.
Qed.

End resolver_more.

(** ** The declared flags *)
Section flags_more.
Context `{Imports}.

Implicit Types (flags f : gmap string string) (name : string)
  (args : list (string * string)).

(** Parsing sets declared flags only: it declares nothing, drops
    nothing, and leaves a flag that is not named its value. *)
Lemma Parse_lookup_None f args f' name :
  pflag.Parse f args = Some f' -> f !! name = None -> f' !! name = None.
Proof.
  revert f. induction args as [| a args IH]; intros f; simpl.
  - intros [= ->]. done.
  - unfold pflag.set_arg. destruct (f !! a.1) eqn:Ha; [| discriminate].
    intros Hparse Hname. apply (IH _ Hparse).
    rewrite lookup_insert_ne; [exact Hname | congruence].
Qed.

Lemma Parse_lookup_is_Some f args f' name :
  pflag.Parse f args = Some f' -> is_Some (f !! name) -> is_Some (f' !! name).
Proof.
  revert f. induction args as [| a args IH]; intros f; simpl.
  - intros [= ->]. done.
  - unfold pflag.set_arg. destruct (f !! a.1) eqn:Ha; [| discriminate].
    intros Hparse Hname. apply (IH _ Hparse).
    rewrite lookup_insert. case_decide; [eauto | exact Hname].
Qed.

Lemma Parse_lookup_other f args f' name :
  pflag.Parse f args = Some f' -> name ∉ args.*1 -> f' !! name = f !! name.
Proof.
  revert f. induction args as [| a args IH]; intros f; simpl.
  - intros [= ->]. done.
  - unfold pflag.set_arg. destruct (f !! a.1) eqn:Ha; [| discriminate].
    intros Hparse Hname. apply not_elem_of_cons in Hname as [Hne Hname].
    rewrite (IH _ Hparse Hname). by apply lookup_insert_ne.
Qed.

Lemma declare_plain (name value : string) (d : Decoration) :
  declare name "" value d =
  match pflag.formal (d_flags d) !! name with
  | Some _ => None
  | None =>
      Some {| d_flags :=
                {| pflag.formal := <[name := value]> (pflag.formal (d_flags d));
                   pflag.shorthands := pflag.shorthands (d_flags d) |};
              d_viper := d_viper d; d_logged := d_logged d |}
  end.
Proof.
  unfold declare, pflag.StringP.
  destruct (pflag.formal (d_flags d) !! name); reflexivity.
Qed.

Lemma declare_n (name value : string) (d : Decoration) :
  declare name "n" value d =
  match pflag.formal (d_flags d) !! name,
        pflag.shorthands (d_flags d) !! "n" with
  | None, None =>
      Some {| d_flags :=
                {| pflag.formal := <[name := value]> (pflag.formal (d_flags d));
                   pflag.shorthands :=
                     <["n" := name]> (pflag.shorthands (d_flags d)) |};
              d_viper := d_viper d; d_logged := d_logged d |}
  | _, _ => None
  end.
Proof.
  unfold declare, pflag.StringP.
  destruct (pflag.formal (d_flags d) !! name); [reflexivity |].
  simpl. destruct (pflag.shorthands (d_flags d) !! "n"); reflexivity.
Qed.

Lemma bind_flag_declared (caller name value : string) (d : Decoration) :
  pflag.formal (d_flags d) !! name = Some value ->
  bind_flag caller name d =
  {| d_flags := d_flags d; d_viper := <[name := name]> (d_viper d);
     d_logged := d_logged d |}.
Proof.
  intros Hdeclared. unfold bind_flag, pflag.Lookup.
  rewrite Hdeclared. reflexivity.
Qed.

(** When [DecorateWithBridgeRootFlags] gets through, each of its seven
    declarations found its name free and the first found the shorthand
    free; the result is the seven defaults written over the flags it
    was given, the shorthand, the four bindings, and an empty log. *)
Lemma DecorateWithBridgeRootFlags_inv (flags : pflag.FlagSet)
  (v : gmap string string) (caller : string) (d : Decoration) :
  DecorateWithBridgeRootFlags flags v caller = Some d <->
  let f1 :=
    <[TendermintNodeFlag := DefaultTendermintNode]> (pflag.formal flags) in
  let f2 := <[HomeFlag := DefaultNodeHome]> f1 in
  let f3 := <[bridgeDBFlag := ""]> f2 in
  let f4 := <[metisChainIDFlag := DefaultMetisChainID]> f3 in
  let f5 := <[logsTypeFlag := DefaultLogsType]> f4 in
  let f6 := <[metricsServerFlag := DefaultMetricsListenAddr]> f5 in
  let f7 := <[rpcServerFlag := DefaultRPCListenAddr]> f6 in
  pflag.formal flags !! TendermintNodeFlag = None /\
  pflag.shorthands flags !! "n" = None /\
  f1 !! HomeFlag = None /\
  f2 !! bridgeDBFlag = None /\ f3 !! metisChainIDFlag = None /\
  f4 !! logsTypeFlag = None /\ f5 !! metricsServerFlag = None /\
  f6 !! rpcServerFlag = None /\
  d = {| d_flags :=
           {| pflag.formal := f7;
              pflag.shorthands :=
                <["n" := TendermintNodeFlag]> (pflag.shorthands flags) |};
         d_viper :=
           <[metisChainIDFlag := metisChainIDFlag]>
             (<[bridgeDBFlag := bridgeDBFlag]>
                (<[HomeFlag := HomeFlag]>
                   (<[TendermintNodeFlag := TendermintNodeFlag]> v)));
         d_logged := [] |}.
Proof.
  unfold DecorateWithBridgeRootFlags. rewrite declare_n. cbn [d_flags].
  destruct (pflag.formal flags !! TendermintNodeFlag) eqn:Hf1;
    [simpl; split; [discriminate | intros (? & _); discriminate] |].
  destruct (pflag.shorthands flags !! "n") eqn:Hn;
    [simpl; split; [discriminate | intros (_ & ? & _); discriminate] |].
  cbn [mbind option_bind].
  erewrite bind_flag_declared by (cbn [d_flags pflag.formal];
                                  apply lookup_insert_eq).
  rewrite declare_plain. cbn [d_flags d_viper d_logged pflag.formal
                              pflag.shorthands].
  destruct (_ !! HomeFlag) eqn:Hf2;
    [simpl; split; [discriminate | intros (_ & _ & ? & _); discriminate] |].
  cbn [mbind option_bind].
  erewrite bind_flag_declared by (cbn [d_flags pflag.formal];
                                  apply lookup_insert_eq).
  rewrite declare_plain. cbn [d_flags d_viper d_logged pflag.formal
                              pflag.shorthands].
  destruct (_ !! bridgeDBFlag) eqn:Hf3;
    [simpl; split;
     [discriminate | intros (_ & _ & _ & ? & _); discriminate] |].
  cbn [mbind option_bind].
  erewrite bind_flag_declared by (cbn [d_flags pflag.formal];
                                  apply lookup_insert_eq).
  rewrite declare_plain. cbn [d_flags d_viper d_logged pflag.formal
                              pflag.shorthands].
  destruct (_ !! metisChainIDFlag) eqn:Hf4;
    [simpl; split;
     [discriminate | intros (_ & _ & _ & _ & ? & _); discriminate] |].
  cbn [mbind option_bind].
  rewrite declare_plain. cbn [d_flags d_viper d_logged pflag.formal
                              pflag.shorthands].
  destruct (_ !! logsTypeFlag) eqn:Hf5;
    [simpl; split;
     [discriminate | intros (_ & _ & _ & _ & _ & ? & _); discriminate] |].
  cbn [mbind option_bind].
  rewrite declare_plain. cbn [d_flags d_viper d_logged pflag.formal
                              pflag.shorthands].
  destruct (_ !! metricsServerFlag) eqn:Hf6;
    [simpl; split;
     [discriminate
     | intros (_ & _ & _ & _ & _ & _ & ? & _); discriminate] |].
  cbn [mbind option_bind].
  rewrite declare_plain. cbn [d_flags d_viper d_logged pflag.formal
                              pflag.shorthands].
  destruct (_ !! rpcServerFlag) eqn:Hf7;
    [simpl; split;
     [discriminate
     | intros (_ & _ & _ & _ & _ & _ & _ & ? & _); discriminate] |].
  cbn [mbind option_bind].
  erewrite bind_flag_declared
    by (cbn [d_flags pflag.formal];
        rewrite !(lookup_insert_ne _ _ metisChainIDFlag) by discriminate;
        apply lookup_insert_eq).
  cbn [d_flags d_viper d_logged]. cbv zeta.
  split.
  - intros [= <-]. repeat split.
  - intros (_ & _ & _ & _ & _ & _ & _ & _ & ->). reflexivity.
Qed.

(** With distinct names every declaration of
    [DecorateWithBridgeRootFlags] goes through on a fresh command; the
    flags it declares are seven, and bridge-sqlite-db and
    with-themis-config are not among them. *)
Lemma DecorateWithBridgeRootFlags_declares (v : gmap string string)
  (caller : string) :
  flag_names_distinct ->
  exists d : Decoration,
    DecorateWithBridgeRootFlags pflag.empty v caller = Some d /\
    dom (pflag.formal (d_flags d)) =
      {[TendermintNodeFlag; HomeFlag; bridgeDBFlag; metisChainIDFlag;
        logsTypeFlag; metricsServerFlag; rpcServerFlag]} /\
    pflag.formal (d_flags d) !! bridgeDBFlag = Some "" /\
    pflag.formal (d_flags d) !! bridgeSqliteDBFlag = None /\
    pflag.formal (d_flags d) !! WithThemisConfigFlag = None.
Proof.
  unfold flag_names_distinct. intros Hnames.
  repeat (apply NoDup_cons in Hnames as [? Hnames]).
  repeat match goal with
         | Hn : _ ∉ _ |- _ =>
             rewrite ?not_elem_of_cons in Hn; decompose [and] Hn; clear Hn
         end.
  eexists. split.
  { apply DecorateWithBridgeRootFlags_inv. simpl.
    rewrite !lookup_insert_ne by congruence.
    repeat split; apply lookup_empty. }
  simpl. split; [| split; [| split]].
  - rewrite !dom_insert_L, dom_empty_L. apply set_eq. intros key.
    rewrite !elem_of_union, !elem_of_singleton, elem_of_empty. tauto.
  - rewrite !(lookup_insert_ne _ _ bridgeDBFlag) by congruence.
    apply lookup_insert_eq.
  - rewrite !lookup_insert_ne by congruence. apply lookup_empty.
  - rewrite !lookup_insert_ne by congruence. apply lookup_empty.
Qed.

(** X5.  [DecorateWithBridgeRootFlags] cannot be applied twice: on the
    flag set a first call has produced, a second call panics at its
    first declaration, whatever the flag names, the viper instance and
    the caller are. *)
Theorem DecorateWithBridgeRootFlags_twice (flags : pflag.FlagSet)
  (v v' : gmap string string) (caller caller' : string) (d : Decoration) :
  DecorateWithBridgeRootFlags flags v caller = Some d ->
  DecorateWithBridgeRootFlags (d_flags d) v' caller' = None.
Proof.
  intros Hfirst. apply DecorateWithBridgeRootFlags_inv in Hfirst.
  simpl in Hfirst.
  destruct Hfirst as (_ & _ & _ & _ & _ & _ & _ & _ & ->).
  destruct (DecorateWithBridgeRootFlags _ v' caller') as [d' |] eqn:Hsecond;
    [| reflexivity].
  apply DecorateWithBridgeRootFlags_inv in Hsecond. simpl in Hsecond.
  destruct Hsecond as (Hnode & _).
  rewrite !lookup_insert in Hnode.
  repeat (case_decide; [discriminate |]). congruence.
Qed.

(** X6.  With pairwise distinct names, [DecorateWithBridgeRootFlags]
    gets through exactly when none of the seven flags it declares is
    declared already and no flag owns the shorthand n; otherwise it
    panics. *)
Theorem DecorateWithBridgeRootFlags_succeeds_iff (flags : pflag.FlagSet)
  (v : gmap string string) (caller : string) :
  flag_names_distinct ->
  is_Some (DecorateWithBridgeRootFlags flags v caller) <->
  (forall name : string,
      name ∈ [TendermintNodeFlag; HomeFlag; bridgeDBFlag;
              metisChainIDFlag; logsTypeFlag; metricsServerFlag;
              rpcServerFlag] ->
      pflag.formal flags !! name = None) /\
  pflag.shorthands flags !! "n" = None.
Proof.
  unfold flag_names_distinct. intros Hnames.
  repeat (apply NoDup_cons in Hnames as [? Hnames]).
  repeat match goal with
         | Hn : _ ∉ _ |- _ =>
             rewrite ?not_elem_of_cons in Hn; decompose [and] Hn; clear Hn
         end.
  split.
  - intros [d Hd]. apply DecorateWithBridgeRootFlags_inv in Hd. simpl in Hd.
    destruct Hd as (Hf1 & Hn & Hf2 & Hf3 & Hf4 & Hf5 & Hf6 & Hf7 & _).
    repeat (rewrite lookup_insert_ne in Hf2 by congruence).
    repeat (rewrite lookup_insert_ne in Hf3 by congruence).
    repeat (rewrite lookup_insert_ne in Hf4 by congruence).
    repeat (rewrite lookup_insert_ne in Hf5 by congruence).
    repeat (rewrite lookup_insert_ne in Hf6 by congruence).
    repeat (rewrite lookup_insert_ne in Hf7 by congruence).
    split; [| exact Hn].
    intros name Hname. rewrite !elem_of_cons, elem_of_nil in Hname.
    intuition congruence.
  - intros [Hfree Hn]. eexists. apply DecorateWithBridgeRootFlags_inv. simpl.
    rewrite !lookup_insert_ne by congruence.
    split; [apply Hfree; rewrite !elem_of_cons; tauto |].
    split; [exact Hn |].
    repeat split; apply Hfree; rewrite !elem_of_cons; tauto.
Qed.

(** X7.  With pairwise distinct names, the flag set
    [DecorateWithBridgeRootFlags] returns holds each declared flag at
    its default (the empty string for bridge-db) and every other flag
    as it was given. *)
Theorem DecorateWithBridgeRootFlags_defaults (flags : pflag.FlagSet)
  (v : gmap string string) (caller : string) (d : Decoration) :
  flag_names_distinct ->
  DecorateWithBridgeRootFlags flags v caller = Some d ->
  let f := pflag.formal (d_flags d) in
  f !! TendermintNodeFlag = Some DefaultTendermintNode /\
  f !! HomeFlag = Some DefaultNodeHome /\
  f !! bridgeDBFlag = Some "" /\
  f !! metisChainIDFlag = Some DefaultMetisChainID /\
  f !! logsTypeFlag = Some DefaultLogsType /\
  f !! metricsServerFlag = Some DefaultMetricsListenAddr /\
  f !! rpcServerFlag = Some DefaultRPCListenAddr /\
  (forall name : string,
      name ∉ [TendermintNodeFlag; HomeFlag; bridgeDBFlag;
              metisChainIDFlag; logsTypeFlag; metricsServerFlag;
              rpcServerFlag] ->
      f !! name = pflag.formal flags !! name).
Proof.
  unfold flag_names_distinct. intros Hnames Hd.
  repeat (apply NoDup_cons in Hnames as [? Hnames]).
  repeat match goal with
         | Hn : _ ∉ _ |- _ =>
             rewrite ?not_elem_of_cons in Hn; decompose [and] Hn; clear Hn
         end.
  apply DecorateWithBridgeRootFlags_inv in Hd. simpl in Hd.
  destruct Hd as (_ & _ & _ & _ & _ & _ & _ & _ & ->). simpl.
  repeat split;
    try (repeat (rewrite lookup_insert_ne by congruence);
         apply lookup_insert_eq).
  intros name Hname. rewrite !not_elem_of_cons in Hname.
  destruct Hname as (? & ? & ? & ? & ? & ? & ? & _).
  rewrite !lookup_insert_ne by congruence. reflexivity.
Qed.

(** X8.  On the flags root.go declares, whatever is given on the
    command line: bridge-sqlite-db and with-themis-config are not
    declared, so the sqlite path stored is always the one derived from
    the home directory and with-themis-config is stored empty. *)
Theorem AdjustBridgeDBValue_on_declared_flags
  (args : list (string * string)) (bound : gmap string string)
  (caller : string) (d : Decoration) (f' : gmap string string)
  (use : string) (v : gmap string string) :
  flag_names_distinct ->
  DecorateWithBridgeRootFlags pflag.empty bound caller = Some d ->
  pflag.Parse (pflag.formal (d_flags d)) args = Some f' ->
  let cmd := {| Use := use; Flags := f' |} in
  AdjustBridgeDBValue cmd v !! bridgeSqliteDBFlag =
    Some (filepath.Join
            [(pflag.GetString f' HomeFlag).1; "bridge"; "sqlite"]) /\
  AdjustBridgeDBValue cmd v !! WithThemisConfigFlag = Some "".
Proof.
  intros Hnames Hd Hparse cmd.
  destruct (DecorateWithBridgeRootFlags_declares bound caller Hnames)
    as (d0 & Hd0 & _ & _ & Hsqlite & Hwith).
  rewrite Hd in Hd0. injection Hd0 as <-.
  apply (Parse_lookup_None _ _ _ _ Hparse) in Hsqlite, Hwith.
  assert (Hget : (pflag.GetString f' bridgeSqliteDBFlag).1 = "")
    by (unfold pflag.GetString; rewrite Hsqlite; reflexivity).
  split.
  - rewrite AdjustBridgeDBValue_bridgeSqliteDB.
    unfold resolved_bridgeSqliteDB, cmd. cbn [Flags].
    rewrite Hget. reflexivity.
  - rewrite AdjustBridgeDBValue_lookup by (first [done | repeat constructor]).
    unfold pflag.GetString, cmd. cbn [Flags]. rewrite Hwith. reflexivity.
Qed.

(** X16.  With pairwise distinct names, [DecorateWithBridgeRootFlags]
    binds four keys on the viper instance it is handed, node, home,
    bridge-db and metis-chain-id, each to the flag of that name, and
    leaves every other binding as it was: logs-type and the two listen
    addresses are declared but not bound.  It logs nothing, and the
    shorthand n belongs to the node flag. *)
Theorem DecorateWithBridgeRootFlags_binds (flags : pflag.FlagSet)
  (v : gmap string string) (caller : string) (d : Decoration) :
  flag_names_distinct ->
  DecorateWithBridgeRootFlags flags v caller = Some d ->
  d_viper d !! TendermintNodeFlag = Some TendermintNodeFlag /\
  d_viper d !! HomeFlag = Some HomeFlag /\
  d_viper d !! bridgeDBFlag = Some bridgeDBFlag /\
  d_viper d !! metisChainIDFlag = Some metisChainIDFlag /\
  (forall key : string,
      key ∉ [TendermintNodeFlag; HomeFlag; bridgeDBFlag;
             metisChainIDFlag] ->
      d_viper d !! key = v !! key) /\
  d_logged d = [] /\
  pflag.shorthands (d_flags d) !! "n" = Some TendermintNodeFlag.
Proof.
  unfold flag_names_distinct. intros Hnames Hd.
  repeat (apply NoDup_cons in Hnames as [? Hnames]).
  repeat match goal with
         | Hn : _ ∉ _ |- _ =>
             rewrite ?not_elem_of_cons in Hn; decompose [and] Hn; clear Hn
         end.
  apply DecorateWithBridgeRootFlags_inv in Hd. simpl in Hd.
  destruct Hd as (_ & _ & _ & _ & _ & _ & _ & _ & ->). simpl.
  split; [| split; [| split; [| split; [| split; [| split]]]]];
    try (repeat (rewrite lookup_insert_ne by congruence);
         apply lookup_insert_eq);
    try reflexivity.
  intros key Hkey. rewrite !not_elem_of_cons in Hkey.
  destruct Hkey as (? & ? & ? & ? & _).
  rewrite !lookup_insert_ne by congruence. reflexivity.
Qed.

End flags_more.

(** ** More on the metrics server and the hooks *)
Section lifecycle_more.
Context `{Imports}.

Implicit Types (cmd sub : Command) (args : list string) (w : World).

Lemma initMetrics_Ret_inv cmd w (w' : World) :
  initMetrics cmd w = Ret tt w' ->
  is_Some (Flags cmd !! metricsServerFlag) /\
  ("/metrics" ∉ DefaultServeMux w) /\
  DefaultServeMux w' = (DefaultServeMux w ++ ["/metrics"])%list /\
  goroutines w' = (goroutines w ++ [metricsListenLoop])%list /\
  http.inShutdown (metricsServer w') = false.
Proof.
  unfold initMetrics.
  destruct (Flags cmd !! metricsServerFlag) as [addr |]; [| discriminate].
  simpl. destruct (decide ("/metrics" ∈ DefaultServeMux w)) as [| Hfree];
    [discriminate |].
  intros [= <-]. repeat split; eauto.
Qed.

(** X9.  [initMetrics] cannot run twice in one process: once a call has
    returned, every later call panics, for whatever command, and starts
    no second goroutine. *)
Theorem initMetrics_twice cmd cmd' w (w' : World) :
  initMetrics cmd w = Ret tt w' ->
  exists w'' : World,
    initMetrics cmd' w' = Panic w'' /\
    goroutines w'' = goroutines w' /\
    config w'' = config w'.
Proof.
  intros Hfirst.
  apply initMetrics_Ret_inv in Hfirst as (_ & _ & Hmux & _ & _).
  unfold initMetrics.
  destruct (Flags cmd' !! metricsServerFlag) as [addr |].
  - simpl. rewrite Hmux.
    destruct (decide ("/metrics" ∈ (DefaultServeMux w ++ ["/metrics"])%list))
      as [_ | Hout].
    + eexists. repeat split.
    + destruct Hout. apply elem_of_app. right. constructor.
  - eexists. repeat split.
Qed.

(** X10.  However [initMetrics] ends, it leaves the configuration
    store, the log and the record of Shutdown calls as they were, and it
    starts the listen goroutine only when it returns. *)
Theorem initMetrics_frame cmd w :
  let w' := Outcome_world (initMetrics cmd w) in
  config w' = config w /\
  logged w' = logged w /\
  shutdownCalls w' = shutdownCalls w /\
  (goroutines w' <> goroutines w -> initMetrics cmd w = Ret tt w').
Proof.
  unfold initMetrics.
  destruct (Flags cmd !! metricsServerFlag) as [addr |]; simpl;
    [| repeat split; congruence].
  destruct (decide ("/metrics" ∈ DefaultServeMux w)); simpl;
    repeat split; congruence.
Qed.

(** X11.  On the flags root.go declares, whatever is given on the
    command line, [initMetrics] finds its flag: with the route still
    free it returns, and the server's address is the flag's value, the
    default when the command line does not name the flag. *)
Theorem initMetrics_on_declared_flags
  (flags : pflag.FlagSet) (v : gmap string string) (caller : string)
  (d : Decoration) (f' : gmap string string)
  (cli : list (string * string)) (use : string) w :
  DecorateWithBridgeRootFlags flags v caller = Some d ->
  pflag.Parse (pflag.formal (d_flags d)) cli = Some f' ->
  "/metrics" ∉ DefaultServeMux w ->
  exists (addr : string) (w' : World),
    f' !! metricsServerFlag = Some addr /\
    initMetrics {| Use := use; Flags := f' |} w = Ret tt w' /\
    http.Addr (metricsServer w') = addr /\
    (metricsServerFlag ∉ cli.*1 -> addr = DefaultMetricsListenAddr).
Proof.
  intros Hd Hparse Hmux.
  apply DecorateWithBridgeRootFlags_inv in Hd. simpl in Hd.
  destruct Hd as (_ & _ & _ & _ & _ & _ & _ & _ & ->). simpl in Hparse.
  match type of Hparse with
  | pflag.Parse ?m _ = _ =>
      assert (Hdefault : m !! metricsServerFlag =
                         Some DefaultMetricsListenAddr)
  end.
  { rewrite lookup_insert_ne by discriminate. apply lookup_insert_eq. }
  destruct (Parse_lookup_is_Some _ _ _ metricsServerFlag Hparse)
    as [addr Haddr]; [eauto |].
  destruct (initMetrics_starts {| Use := use; Flags := f' |} w addr
              Haddr Hmux) as (w' & Hinit & _ & Hserver & _).
  exists addr, w'. repeat split; try assumption.
  intros Hcli. rewrite (Parse_lookup_other _ _ _ _ Hparse Hcli) in Haddr.
  congruence.
Qed.

(** X12.  Right after [initMetrics] has returned, whatever ends the
    listen loop (a failed bind, say) is logged as it is and the
    goroutine ends the process with code 1. *)
Theorem metricsListen_after_initMetrics cmd w (w' : World)
  (served : error) :
  initMetrics cmd w = Ret tt w' ->
  metricsListen served w' =
  Exit 1 (logger_Error "failed to start metrics server" served w').
Proof.
  intros Hinit.
  apply initMetrics_Ret_inv in Hinit as (_ & _ & _ & _ & Hrunning).
  unfold metricsListen, http.ListenAndServe. rewrite Hrunning. reflexivity.
Qed.

Lemma bind_result_id (m : Outcome (option error)) :
  bind m (fun err w =>
            match err with
            | Some e => Ret (Some e) w
            | None => Ret None w
            end) = m.
Proof. destruct m as [[e |] w | code w | w]; reflexivity. Qed.

(** X13.  A subcommand of [rootCmd] without hooks of its own runs the
    root's pre-run hook and then its body, and that is all: the run
    ends as the body ends, and the root's post-run hook is not
    called. *)
Theorem subcommand_run (flags : gmap string string) sub
  (run : Command -> list string -> World -> Outcome (option error))
  args w :
  cobra.execute
    {| cobra.command := sub; cobra.PersistentPreRun := None;
       cobra.RunE := Some run; cobra.PostRunE := None |}
    [rootCmd flags] args w =
  bind (rootCmd_PersistentPreRun sub args w)
    (fun _ w1 => run sub args w1).
Proof.
  unfold cobra.execute. simpl.
  destruct (rootCmd_PersistentPreRun sub args w); simpl;
    [apply bind_result_id | reflexivity | reflexivity].
Qed.

(** X14.  The version subcommand runs bare: its run is its body on the
    process state as it was, with no configuration resolved, no metrics
    server started and no Shutdown called. *)
Theorem version_subcommand_run (flags : gmap string string) sub
  (run : Command -> list string -> World -> Outcome (option error))
  args w :
  Use sub = version_Cmd_Use ->
  cobra.execute
    {| cobra.command := sub; cobra.PersistentPreRun := None;
       cobra.RunE := Some run; cobra.PostRunE := None |}
    [rootCmd flags] args w =
  run sub args w.
Proof.
  intros Hversion. unfold cobra.execute. simpl.
  unfold rootCmd_PersistentPreRun.
  destruct (decide (Use sub ≠ version_Cmd_Use)); [contradiction |].
  simpl. apply bind_result_id.
Qed.

(** X15.  With pairwise distinct names [BridgeCommands] returns the root
    command with the seven flags declared; run by itself, without a
    subcommand, it only asks for help: no hook runs and the process
    state stays as it was. *)
Theorem BridgeCommands_root (v : gmap string string) (caller : string) :
  flag_names_distinct ->
  exists (c : cobra.Cmd) (d : Decoration),
    BridgeCommands v caller = Some (c, d) /\
    Use (cobra.command c) = "themis-bridge" /\
    dom (Flags (cobra.command c)) =
      {[TendermintNodeFlag; HomeFlag; bridgeDBFlag; metisChainIDFlag;
        logsTypeFlag; metricsServerFlag; rpcServerFlag]} /\
    forall args w, cobra.execute c [] args w = Ret (Some ErrHelp) w.
Proof.
  intros Hnames.
  destruct (DecorateWithBridgeRootFlags_declares v caller Hnames)
    as (d & Hd & Hdom & _).
  exists (rootCmd (pflag.formal (d_flags d))), d.
  unfold BridgeCommands. rewrite Hd.
  repeat split. exact Hdom.
Qed.

End lifecycle_more.

(** ** The further properties on sample runs *)

Lemma AdjustBridgeDBValue_derived_rooted_witness :
  (pflag.GetString (Flags start_command) bridgeDBFlag).1 = "" /\
  exists storage : string,
    AdjustBridgeDBValue (H := sample_imports) start_command ∅
      !! bridgeDBFlag = Some storage /\
    filepath.is_rooted storage = filepath.is_rooted "/data".
Proof.
  split; [by_computation |].
  apply (AdjustBridgeDBValue_derived_rooted (H := sample_imports)
           start_command ∅).
  by_computation.
Defined.

Lemma AdjustBridgeDBValue_depends_on_read_flags_witness :
  AdjustBridgeDBValue (H := sample_imports) start_command ∅ !! "bridge-db" =
  AdjustBridgeDBValue (H := sample_imports) other_command used_store
    !! "bridge-db".
Proof.
  apply (AdjustBridgeDBValue_depends_on_read_flags (H := sample_imports)
           start_command other_command ∅ used_store "bridge-db").
  - intros name Hname. rewrite !elem_of_cons, elem_of_nil in Hname.
    destruct Hname as [-> | [-> | [-> | [-> | [-> | [-> | [-> | []]]]]]]];
      by_computation.
  - repeat constructor.
Defined.

Lemma AdjustBridgeDBValue_keeps_entries_witness :
  is_Some (used_store !! "custom-key") /\
  is_Some (AdjustBridgeDBValue (H := sample_imports) start_command used_store
             !! "custom-key").
Proof.
  assert (Hin : is_Some (used_store !! "custom-key"))
    by (exists "kept"; by_computation).
  split; [exact Hin |].
  apply (AdjustBridgeDBValue_keeps_entries (H := sample_imports)
           start_command used_store "custom-key").
  exact Hin.
Defined.

Lemma DecorateWithBridgeRootFlags_twice_witness :
  DecorateWithBridgeRootFlags (H := sample_imports)
    pflag.empty ∅ "themis-bridge" = Some decorated /\
  DecorateWithBridgeRootFlags (H := sample_imports)
    (d_flags decorated) ∅ "themis-bridge" = None.
Proof.
  assert (Hfirst : DecorateWithBridgeRootFlags (H := sample_imports)
                     pflag.empty ∅ "themis-bridge" = Some decorated)
    by by_computation.
  split; [exact Hfirst |].
  exact (DecorateWithBridgeRootFlags_twice (H := sample_imports)
           pflag.empty ∅ ∅ "themis-bridge" "themis-bridge" decorated
           Hfirst).
Defined.

Lemma DecorateWithBridgeRootFlags_succeeds_iff_witness :
  flag_names_distinct (H := sample_imports) /\
  is_Some (DecorateWithBridgeRootFlags (H := sample_imports)
             pflag.empty ∅ "themis-bridge") /\
  pflag.formal shorthand_taken !! "node" = None /\
  ~ is_Some (DecorateWithBridgeRootFlags (H := sample_imports)
               shorthand_taken ∅ "themis-bridge").
Proof.
  assert (Hnames : flag_names_distinct (H := sample_imports))
    by (unfold flag_names_distinct; decide_by_computation).
  split; [exact Hnames |]. split; [| split].
  - apply (DecorateWithBridgeRootFlags_succeeds_iff (H := sample_imports)
             pflag.empty ∅ "themis-bridge" Hnames).
    split; [intros name _; apply lookup_empty | apply lookup_empty].
  - by_computation.
  - intros Hsome.
    apply (DecorateWithBridgeRootFlags_succeeds_iff (H := sample_imports)
             shorthand_taken ∅ "themis-bridge" Hnames) in Hsome.
    destruct Hsome as [_ Hn]. vm_compute in Hn. discriminate Hn.
Defined.

Lemma DecorateWithBridgeRootFlags_defaults_witness :
  declared_flags !! "home" = Some "/var/lib/themis" /\
  declared_flags !! "bridge-db" = Some "" /\
  declared_flags !! "metrics-server-addr" = Some ":2112".
Proof.
  assert (Hnames : flag_names_distinct (H := sample_imports))
    by (unfold flag_names_distinct; decide_by_computation).
  assert (Hfirst : DecorateWithBridgeRootFlags (H := sample_imports)
                     pflag.empty ∅ "themis-bridge" = Some decorated)
    by by_computation.
  destruct (DecorateWithBridgeRootFlags_defaults (H := sample_imports)
              pflag.empty ∅ "themis-bridge" decorated Hnames Hfirst)
    as (_ & Hhome & Hdb & _ & _ & Hmetrics & _).
  split; [exact Hhome |]. split; [exact Hdb | exact Hmetrics].
Defined.

Lemma DecorateWithBridgeRootFlags_binds_witness :
  d_viper decorated !! "metis-chain-id" = Some "metis-chain-id" /\
  d_viper decorated !! "logs-type" = None /\
  d_viper decorated !! "metrics-server-addr" = None /\
  d_logged decorated = [] /\
  pflag.shorthands (d_flags decorated) !! "n" = Some "node".
Proof.
  assert (Hnames : flag_names_distinct (H := sample_imports))
    by (unfold flag_names_distinct; decide_by_computation).
  assert (Hfirst : DecorateWithBridgeRootFlags (H := sample_imports)
                     pflag.empty ∅ "themis-bridge" = Some decorated)
    by by_computation.
  destruct (DecorateWithBridgeRootFlags_binds (H := sample_imports)
              pflag.empty ∅ "themis-bridge" decorated Hnames Hfirst)
    as (_ & _ & _ & Hchain & Hframe & Hlog & Hn).
  split; [exact Hchain |].
  split; [apply (Hframe "logs-type"); vm_compute; intros Hin;
          repeat (apply elem_of_cons in Hin as [Hin | Hin];
                  [discriminate Hin |]);
          by apply elem_of_nil in Hin |].
  split; [apply (Hframe "metrics-server-addr"); vm_compute; intros Hin;
          repeat (apply elem_of_cons in Hin as [Hin | Hin];
                  [discriminate Hin |]);
          by apply elem_of_nil in Hin |].
  split; [exact Hlog | exact Hn].
Defined.

Lemma AdjustBridgeDBValue_on_declared_flags_witness :
  pflag.Parse declared_flags [("home", "/data")] = Some sample_flags /\
  AdjustBridgeDBValue (H := sample_imports) start_command ∅
    !! bridgeSqliteDBFlag = Some "/data/bridge/sqlite" /\
  AdjustBridgeDBValue (H := sample_imports) start_command ∅
    !! "with-themis-config" = Some "".
Proof.
  assert (Hnames : flag_names_distinct (H := sample_imports))
    by (unfold flag_names_distinct; decide_by_computation).
  assert (Hfirst : DecorateWithBridgeRootFlags (H := sample_imports)
                     pflag.empty ∅ "themis-bridge" = Some decorated)
    by by_computation.
  assert (Hparse : pflag.Parse declared_flags [("home", "/data")]
                   = Some sample_flags) by by_computation.
  split; [exact Hparse |].
  exact (AdjustBridgeDBValue_on_declared_flags (H := sample_imports)
           [("home", "/data")] ∅ "themis-bridge" decorated sample_flags
           "start" ∅ Hnames Hfirst Hparse).
Defined.

Lemma initMetrics_twice_witness :
  initMetrics (H := sample_imports) start_command fresh = Ret tt serving /\
  exists w'' : World,
    initMetrics (H := sample_imports) other_command serving = Panic w'' /\
    goroutines w'' = [metricsListenLoop].
Proof.
  assert (Hfirst : initMetrics (H := sample_imports) start_command fresh
                   = Ret tt serving) by by_computation.
  split; [exact Hfirst |].
  destruct (initMetrics_twice (H := sample_imports) start_command
              other_command fresh serving Hfirst) as (w'' & Hpanic & Hgo & _).
  exists w''. split; [exact Hpanic | exact Hgo].
Defined.

Lemma initMetrics_frame_witness :
  goroutines (Outcome_world
                (initMetrics (H := sample_imports) start_command fresh))
    <> goroutines fresh /\
  initMetrics (H := sample_imports) start_command fresh = Ret tt serving.
Proof.
  assert (Hgo : goroutines (Outcome_world
                  (initMetrics (H := sample_imports) start_command fresh))
                <> goroutines fresh) by (vm_compute; discriminate).
  split; [exact Hgo |].
  destruct (initMetrics_frame (H := sample_imports) start_command fresh)
    as (_ & _ & _ & Hret).
  exact (Hret Hgo).
Defined.

Lemma initMetrics_on_declared_flags_witness :
  exists (addr : string) (w' : World),
    sample_flags !! metricsServerFlag = Some addr /\
    initMetrics (H := sample_imports) start_command fresh = Ret tt w' /\
    http.Addr (metricsServer w') = addr /\
    addr = ":2112".
Proof.
  destruct (initMetrics_on_declared_flags (H := sample_imports)
              pflag.empty ∅ "themis-bridge" decorated sample_flags
              [("home", "/data")] "start" fresh)
    as (addr & w' & Haddr & Hinit & Hserver & Hdefault).
  - by_computation.
  - by_computation.
  - apply not_elem_of_nil.
  - exists addr, w'. repeat split; try assumption.
    apply Hdefault. simpl. intros Hin.
    rewrite elem_of_cons, elem_of_nil in Hin.
    destruct Hin as [Hin | []]. discriminate Hin.
Defined.

Lemma metricsListen_after_initMetrics_witness :
  initMetrics (H := sample_imports) start_command fresh = Ret tt serving /\
  metricsListen (ErrOther "listen tcp :2112: bind: address already in use")
    serving =
  Exit 1
    (logger_Error "failed to start metrics server"
       (ErrOther "listen tcp :2112: bind: address already in use") serving).
Proof.
  assert (Hfirst : initMetrics (H := sample_imports) start_command fresh
                   = Ret tt serving) by by_computation.
  split; [exact Hfirst |].
  exact (metricsListen_after_initMetrics (H := sample_imports)
           start_command fresh serving _ Hfirst).
Defined.

Lemma version_subcommand_run_witness :
  Use version_command = version_Cmd_Use (Imports := sample_imports) /\
  cobra.execute
    {| cobra.command := version_command; cobra.PersistentPreRun := None;
       cobra.RunE := Some succeeding_body; cobra.PostRunE := None |}
    [rootCmd (H := sample_imports) sample_flags] [] fresh =
  Ret None fresh.
Proof.
  split; [reflexivity |].
  apply (version_subcommand_run (H := sample_imports) sample_flags
           version_command succeeding_body [] fresh).
  reflexivity.
Defined.

Lemma BridgeCommands_root_witness :
  flag_names_distinct (H := sample_imports) /\
  exists (c : cobra.Cmd) (d : Decoration),
    BridgeCommands (H := sample_imports) ∅ "themis-bridge" = Some (c, d) /\
    cobra.execute c [] [] fresh = Ret (Some ErrHelp) fresh.
Proof.
  assert (Hnames : flag_names_distinct (H := sample_imports))
    by (unfold flag_names_distinct; decide_by_computation).
  split; [exact Hnames |].
  destruct (BridgeCommands_root (H := sample_imports) ∅ "themis-bridge"
              Hnames) as (c & d & Hc & _ & _ & Hhelp).
  exists c, d. split; [exact Hc | apply Hhelp].
Defined.
